(** * Forced full-document text rendering (pdf.js [full_text_render])

    A shallow embedding of the three programs found under [src/]:

    - [Basic]      : src/unnamed/part_000 (no watchdog timer, no bookkeeping
                     of the forced view);
    - [Watchdog]   : the first program of src/web/full_text_render.js
                     (adds [renderingView], [timer], [onResumeRender]);
    - [Highlights] : the second program of src/web/full_text_render.js
                     (adds the page-count ceiling and the average word
                     length heuristic).

    The functions [forEachView], [getAllRenderPromises] and
    [updateInitialLoadingProgress] are textually identical in the three
    programs and are embedded once; the others take the program as a
    parameter and branch exactly where the programs differ. *)

From Stdlib Require Import ZArith QArith Qround List Bool Lia.
From stdpp Require Import base option list gmap.
Import ListNotations.

Close Scope Q_scope.
Open Scope nat_scope.
Set Warnings "-clear-no-such-hyp".

(** ** JavaScript numbers

    The module only ever divides one integer by a non-negative one,
    multiplies the quotient by 100, rounds it and compares it with integer
    constants.  A number is modelled as NaN, one of the infinities, or an
    exact rational; IEEE rounding of the quotient is not modelled.  For
    operands below 2^50 the rounding error cannot move a quotient across
    the integers it is compared with (1, 10 and 100); [Math_round] can
    differ from the rounding of the double only when the exact value lies
    within that error of a half-integer, which 100/3 and 200/3 do not. *)

Inductive Num : Type :=
| NaN
| PosInf
| NegInf
| Fin (q : Q).

Definition num_of_Z (z : Z) : Num := Fin (inject_Z z).

(** [a / b] for integer-valued operands. *)
Definition num_div (a b : Z) : Num :=
  if (b =? 0)%Z then
    (if (a =? 0)%Z then NaN else if (0 <? a)%Z then PosInf else NegInf)
  else Fin (inject_Z a / inject_Z b)%Q.

(** [x * 100]. *)
Definition num_times100 (x : Num) : Num :=
  match x with
  | Fin q => Fin (q * inject_Z 100)%Q
  | other => other
  end.

Definition Qlt_bool (a b : Q) : bool := negb (Qle_bool b a).

(** [x > k], [x < k] and [x >= k] against an integer constant; every
    comparison with NaN is false. *)
Definition num_gt (x : Num) (k : Z) : bool :=
  match x with
  | NaN => false
  | PosInf => true
  | NegInf => false
  | Fin q => Qlt_bool (inject_Z k) q
  end.

Definition num_lt (x : Num) (k : Z) : bool :=
  match x with
  | NaN => false
  | PosInf => false
  | NegInf => true
  | Fin q => Qlt_bool q (inject_Z k)
  end.

Definition num_ge (x : Num) (k : Z) : bool :=
  match x with
  | NaN => false
  | PosInf => true
  | NegInf => false
  | Fin q => Qle_bool (inject_Z k) q
  end.

(** [Math.round]: the nearest integer, halves towards +infinity. *)
Definition Math_round (x : Num) : Num :=
  match x with
  | Fin q => num_of_Z (Qfloor (q + (1 # 2))%Q)
  | other => other
  end.

(** ** Data model *)

(** Modelled from the spec: the enumeration [RenderingStates] is imported
    from ./pdf_rendering_queue, which is not part of the sources at hand.
    Only [PAUSED] is ever compared against. *)
Inductive RenderingStates : Type := QUEUED | RUNNING | PAUSED | FINISHED.

Definition RenderingStates_eqb (a b : RenderingStates) : bool :=
  match a, b with
  | QUEUED, QUEUED | RUNNING, RUNNING | PAUSED, PAUSED | FINISHED, FINISHED => true
  | _, _ => false
  end.

(** Page views are objects: they are named by a reference and their
    current contents are read from the environment. *)
Definition ref := nat.
Definition Promise := nat.

Record PaintTask := { promise : Promise }.

(** [textLayer.textLayerDiv.childNodes.length] is all that is read of a
    text layer. *)
Record TextLayer := { childNodes_length : nat }.

Record PageView := {
  renderingState : RenderingStates;
  paintTask : option PaintTask;
  textLayer : option TextLayer;
}.

(** The element with id [loading-dlgbox]; [progress_meter] tells whether
    [querySelector('progress')] finds an element below it. *)
Record DlgBox := { progress_meter : bool }.

(** A string is its sequence of UTF-16 code units. *)
Definition JsString := list N.

(** Everything the module reads but does not own.  The environment is fixed
    while one handler runs (the event loop is single-threaded) and may be
    different at every handler invocation. *)
Record Env := {
  _pages : list ref;               (* PDFViewerApplication.pdfViewer._pages *)
  view : ref -> PageView;          (* the current contents of each view *)
  keepTextLayers : bool;           (* pdfViewer.keepTextLayers *)
  viewer_pagesCount : nat;         (* pdfViewer.pagesCount *)
  app_pagesCount : nat;            (* PDFViewerApplication.pagesCount *)
  loading_dlgbox : option DlgBox;  (* document.getElementById('loading-dlgbox') *)
  (* textContent of document.querySelector(
       `#viewer .page[data-page-number="${p}"]`), None when it is null *)
  page_container : nat -> option JsString;
}.

Inductive Exn : Type :=
| TypeError
| Raised (code : nat).

Inductive Notice : Type :=
| TooLarge       (* "... because it is too large." *)
| Unsupported.   (* "... the format used to produce this document is unsupported ..." *)

(** Observable actions, in the order they are performed. *)
Inductive Effect : Type :=
| ConsoleErrorIterating (x : Exn)                   (* console.error('Exception occurred while iterating over all views:', x) *)
| ConsoleWarnAlreadyRendered (num : Z)              (* console.warn(`page already rendered: ${num}`) *)
| ConsoleLogPageRendered (num : Z) (done count : nat) (* console.log(`page rendered: ${num} (${done}/${count})`) *)
| ConsoleInfoAllRendered                            (* console.info('all pages rendered.') *)
| ConsoleErrorNoContainer (p : nat)                 (* console.error('failed to locate page container for:', p) *)
| ConsoleLogAverage (avg : Num) (len : Z) (words : nat) (* console.log('average word length: ...') *)
| RenderView (v : ref)                              (* view.renderingQueue.renderView(view) *)
| RemoveVisible                                     (* dlgbox.removeAttribute('visible') *)
| SetMeterValue (value : Num)                       (* meter.value = ... *)
| SetVisible                                        (* dlgbox.setAttribute('visible', '') *)
| SetInterval (id : nat)                            (* setInterval(onResumeRender, 250) *)
| ClearInterval (id : nat)                          (* clearInterval(timer) *)
| EventBusOn                                        (* app.eventBus.on('textlayerrendered', onRendered) *)
| EventBusOff                                       (* app.eventBus.off('textlayerrendered', onRendered) *)
| Alert (n : Notice)                                (* alert(...) *)
| DispatchDocumentRendered (enableHighlights : option bool). (* document.dispatchEvent(event) *)

(** The module's own variables, together with the trace of its actions. *)
Record St := {
  renderingView : option ref;   (* let renderingView = null *)
  timer : option nat;           (* let timer = null *)
  next_interval : nat;          (* the id the next setInterval returns *)
  rendered : gmap Z bool;       (* const rendered = {} *)
  subscribed : bool;            (* is onRendered registered on the event bus *)
  trace : list Effect;
}.

Definition set_renderingView (v : option ref) (s : St) : St :=
  {| renderingView := v; timer := timer s; next_interval := next_interval s;
     rendered := rendered s; subscribed := subscribed s; trace := trace s |}.

Definition set_timer (t : option nat) (s : St) : St :=
  {| renderingView := renderingView s; timer := t; next_interval := next_interval s;
     rendered := rendered s; subscribed := subscribed s; trace := trace s |}.

Definition set_next_interval (n : nat) (s : St) : St :=
  {| renderingView := renderingView s; timer := timer s; next_interval := n;
     rendered := rendered s; subscribed := subscribed s; trace := trace s |}.

Definition set_rendered (r : gmap Z bool) (s : St) : St :=
  {| renderingView := renderingView s; timer := timer s; next_interval := next_interval s;
     rendered := r; subscribed := subscribed s; trace := trace s |}.

Definition set_subscribed (b : bool) (s : St) : St :=
  {| renderingView := renderingView s; timer := timer s; next_interval := next_interval s;
     rendered := rendered s; subscribed := b; trace := trace s |}.

Definition St_emit (x : Effect) (s : St) : St :=
  {| renderingView := renderingView s; timer := timer s; next_interval := next_interval s;
     rendered := rendered s; subscribed := subscribed s; trace := trace s ++ [x] |}.

(** ** Computations: environment, state and exceptions *)

Inductive Res (A : Type) : Type :=
| Normal (a : A)
| Throw (x : Exn).
Arguments Normal {A} a.
Arguments Throw {A} x.

(** A statement reads the environment, updates a state and either
    completes or throws; what it did before throwing stays done. *)
Definition M (S A : Type) : Type := Env -> S -> Res A * S.

Definition ret {S A} (a : A) : M S A := fun _ s => (Normal a, s).

Definition throw {S A} (x : Exn) : M S A := fun _ s => (Throw x, s).

Definition bind {S A B} (m : M S A) (k : A -> M S B) : M S B :=
  fun e s =>
    match m e s with
    | (Normal a, s') => k a e s'
    | (Throw x, s') => (Throw x, s')
    end.

Definition try_catch {S A} (body : M S A) (handler : Exn -> M S A) : M S A :=
  fun e s =>
    match body e s with
    | (Normal a, s') => (Normal a, s')
    | (Throw x, s') => handler x e s'
    end.

Definition ask {S} : M S Env := fun e s => (Normal e, s).
Definition get {S} : M S S := fun _ s => (Normal s, s).
Definition modify {S} (f : S -> S) : M S unit := fun _ s => (Normal tt, f s).

Notation "'let*' x ':=' m 'in' k" := (bind m (fun x => k))
  (at level 10, x name, m at level 100, k at level 200).
Notation "m '>>' k" := (bind m (fun _ => k))
  (at level 100, k at level 200, right associativity).

(** States on which an action can be recorded: the module state itself,
    and the module state paired with the locals of a closure. *)
Class Emits (S : Type) := emit : Effect -> S -> S.
#[export] Instance St_Emits : Emits St := St_emit.
#[export] Instance pair_Emits {S L} `{Emits S} : Emits (S * L) :=
  fun x sl => (emit x (fst sl), snd sl).

Definition perform {S} `{Emits S} (x : Effect) : M S unit := modify (emit x).

(** The final state of a computation. *)
Definition exec {S A} (m : M S A) (e : Env) (s : S) : S := snd (m e s).
Definition outcome {S A} (m : M S A) (e : Env) (s : S) : Res A := fst (m e s).

(** ** forEachView

    The callback's result is [None] for [undefined].  [k] is the loop
    variable plus one: the views at indices [k-1], ..., [0] remain to be
    visited. *)
Fixpoint forEachView_loop {S R} `{Emits S}
    (callback : ref -> M S (option R)) (pages : list ref) (k : nat)
  : M S (option R) :=
  match k with
  | O => ret None                                    (* return undefined *)
  | S n =>
      match pages !! n with
      | Some page =>
          let* stop :=
            try_catch
              (let* result := callback page in
               match result with
               | Some r => ret (Some (Some r))       (* return result *)
               | None => ret None
               end)
              (fun x => perform (ConsoleErrorIterating x) >> ret None)
          in
          match stop with
          | Some result => ret result
          | None => forEachView_loop callback pages n
          end
      | None => forEachView_loop callback pages n    (* not reached: n < pages.length *)
      end
  end.

Definition forEachView {S R} `{Emits S}
    (callback : ref -> M S (option R)) : M S (option R) :=
  let* e := ask in
  let pages := _pages e in
  forEachView_loop callback pages (length pages).

(** ** getAllRenderPromises

    [promises] is a local of the function that the callback appends to; it
    is threaded next to the module state. *)
Definition getAllRenderPromises : M St (list Promise) :=
  fun e s =>
    let visit (page : ref) : M (St * list Promise) (option unit) :=
      let* e := ask in
      let v := view e page in
      match paintTask v with
      | Some task =>
          if negb (RenderingStates_eqb (renderingState v) PAUSED)
          then modify (fun sl => (fst sl, snd sl ++ [promise task])) >> ret None
          else ret None
      | None => ret None
      end in
    let '(_, (s', promises)) := forEachView visit e (s, []) in
    (Normal promises, s').

(** ** The three programs *)

Inductive Program : Type := Basic | Watchdog | Highlights.

(** [renderingView], [timer] and [onResumeRender] exist in the two
    programs of full_text_render.js only. *)
Definition has_watchdog (p : Program) : bool :=
  match p with Basic => false | Watchdog | Highlights => true end.

(** The ceiling on the page count and the word-length heuristic exist in
    the second program of full_text_render.js only. *)
Definition has_heuristic (p : Program) : bool :=
  match p with Highlights => true | Basic | Watchdog => false end.

Definition INTERVAL_RESUME_RENDER : nat := 250.
Definition MAX_CACHE_SIZE : nat := 100.
Definition MAX_AVG_WORD_LENGTH : Z := 10.

(** ** The external collaborators *)

(** Modelled from the spec: [view.renderingQueue.renderView(view)] is the
    page's render-request capability on the external rendering queue,
    which is not part of the sources at hand.  It is recorded as a request
    to that queue; the work of the queue shows in the environment of later
    handlers. *)
Definition renderView (v : ref) : M St unit := perform (RenderView v).

(** Modelled from the spec: [app.eventBus] is a signal bus supporting
    subscribe and unsubscribe for named events; it is not part of the
    sources at hand.  [subscribed] tells whether [onRendered] is
    registered for 'textlayerrendered'. *)
Definition eventBus_on : M St unit :=
  modify (set_subscribed true) >> perform EventBusOn.

Definition eventBus_off : M St unit :=
  modify (set_subscribed false) >> perform EventBusOff.

(** ** renderNextPage *)
Definition renderNextPage (p : Program) : M St unit :=
  forEachView (fun page =>
    let* e := ask in
    let v := view e page in
    if match textLayer v with
       | None => true                                 (* !view.textLayer *)
       | Some layer => childNodes_length layer <? 1   (* ...childNodes.length < 1 *)
       end
    then
      (if has_watchdog p then modify (set_renderingView (Some page)) else ret tt) >>
      renderView page >>
      ret (Some true)
    else ret None) >>
  ret tt.

(** ** updateInitialLoadingProgress

    Reading a property of [null] raises a TypeError. *)
Definition property_of {S A} (o : option A) : M S A :=
  match o with
  | Some a => ret a
  | None => throw TypeError
  end.

Definition updateInitialLoadingProgress (progress : Num) : M St unit :=
  let* found :=
    try_catch
      (let* e := ask in
       let dlgbox := loading_dlgbox e in
       let* box := property_of dlgbox in              (* dlgbox.querySelector *)
       let meter := if progress_meter box then Some tt else None in
       ret (Some meter))
      (fun _ => ret None)                             (* catch (x) { return; } *)
  in
  match found with
  | None => ret tt
  | Some meter =>
      if num_ge progress 100 then perform RemoveVisible
      else
        let* _ := property_of meter in                (* meter.value = ... *)
        perform (SetMeterValue (Math_round progress)) >>
        perform SetVisible
  end.

(** ** The timer *)

Definition stopTimer : M St unit :=
  let* s := get in
  match timer s with
  | Some id => perform (ClearInterval id) >> modify (set_timer None)
  | None => ret tt
  end.

Definition startTimer : M St unit :=
  stopTimer >>
  let* s := get in
  let id := next_interval s in
  perform (SetInterval id) >>
  modify (set_next_interval (S id)) >>
  modify (set_timer (Some id)).

(** ** calculateAverageWordLength *)

(** The code units matched by [\s]. *)
Definition is_space (c : N) : bool :=
  ((9 <=? c) && (c <=? 13) || (c =? 32) || (c =? 160) || (c =? 5760)
   || (8192 <=? c) && (c <=? 8202) || (c =? 8232) || (c =? 8233)
   || (c =? 8239) || (c =? 8287) || (c =? 12288) || (c =? 65279))%N.

(** [text.split(/\s+/)]: the pieces between the maximal runs of white
    space.  [piece] is the piece being read, reversed; [in_run] tells that
    the previous code unit was white space. *)
Fixpoint split_loop (in_run : bool) (piece : JsString) (text : JsString)
  : list JsString :=
  match text with
  | [] => [rev piece]
  | c :: rest =>
      if is_space c then
        if in_run then split_loop true piece rest
        else rev piece :: split_loop true [] rest
      else split_loop false (c :: piece) rest
  end.

Definition split_spaces (text : JsString) : list JsString :=
  split_loop false [] text.

(** The body of the [for] loop, for the page numbers [p], [p+1], ...,
    [p + remaining - 1]. *)
Fixpoint sum_pages (remaining p : nat) (len : Z) (words : nat)
  : M St (Z * nat) :=
  match remaining with
  | O => ret (len, words)
  | S r =>
      let* e := ask in
      match page_container e p with
      | None =>
          perform (ConsoleErrorNoContainer p) >>
          sum_pages r (S p) len words                 (* continue *)
      | Some text =>
          let len := (len + Z.of_nat (length text))%Z in
          let pwords := length (split_spaces text) in
          let words := words + pwords in
          let len := (len - Z.of_nat pwords)%Z in
          sum_pages r (S p) len words
      end
  end.

Definition calculateAverageWordLength (totalPages : nat) : M St Num :=
  let* sums := sum_pages totalPages 1 0%Z 0 in
  let len := fst sums in
  let words := snd sums in
  let avg := num_div len (Z.of_nat words) in
  perform (ConsoleLogAverage avg len words) >>
  ret avg.

Definition enableHighlights_of (wordLen : Num) : bool :=
  num_gt wordLen 1 && num_lt wordLen MAX_AVG_WORD_LENGTH.

(** ** onResumeRender *)
Definition onResumeRender : M St unit :=
  let* s := get in
  let* e := ask in
  match renderingView s with
  | Some v =>
      if RenderingStates_eqb (renderingState (view e v)) PAUSED
      then renderView v
      else ret tt
  | None => ret tt
  end.

(** ** onRendered

    [pageNumber] is [ev.pageNumber]. *)
Definition mark_rendered (num : Z) : M St unit :=
  let* s := get in
  if bool_decide (rendered s !! num = Some true)
  then perform (ConsoleWarnAlreadyRendered num)
  else modify (set_rendered (<[num := true]> (rendered s))).

Definition finish (p : Program) (count : nat) : M St unit :=
  let* detail :=
    (if has_heuristic p then
       let* wordLen := calculateAverageWordLength count in
       let enableHighlights := enableHighlights_of wordLen in
       (if negb enableHighlights then perform (Alert Unsupported) else ret tt) >>
       ret (Some enableHighlights)
     else ret None)
  in
  perform ConsoleInfoAllRendered >>
  eventBus_off >>
  perform (DispatchDocumentRendered detail).

Definition onRendered (p : Program) (pageNumber : Z) : M St unit :=
  (if has_watchdog p then stopTimer else ret tt) >>
  let num := (pageNumber - 1)%Z in
  mark_rendered num >>
  let* e := ask in
  let count := app_pagesCount e in
  let* s := get in
  let done := size (rendered s) in
  perform (ConsoleLogPageRendered num done count) >>
  updateInitialLoadingProgress
    (num_times100 (num_div (Z.of_nat done) (Z.of_nat count))) >>
  let* promises := getAllRenderPromises in
  if 0 <? length promises then ret tt
  else if done <? count then
    (if has_watchdog p then startTimer else ret tt) >>
    renderNextPage p
  else finish p count.

(** ** run (named [onDocumentLoaded] in [Highlights]) *)
Definition run (p : Program) : M St unit :=
  let* e := ask in
  if negb (keepTextLayers e) then ret tt
  else if has_heuristic p && (MAX_CACHE_SIZE <? viewer_pagesCount e)
  then perform (Alert TooLarge)
  else
    modify (set_rendered ∅) >>
    updateInitialLoadingProgress (num_of_Z 0) >>
    eventBus_on.

(** ** The host: event bus and interval timer *)

Inductive Input : Type :=
| TextLayerRendered (pageNumber : Z)
| IntervalElapsed.

(** Modelled from the spec: the signal bus and the interval timer are the
    host's.  The bus calls [onRendered] for a 'textlayerrendered' event
    while the handler is subscribed; the timer calls [onResumeRender] while
    an interval is armed. *)
Definition handle (p : Program) (i : Input) : M St unit :=
  let* s := get in
  match i with
  | TextLayerRendered pageNumber =>
      if subscribed s then onRendered p pageNumber else ret tt
  | IntervalElapsed =>
      match timer s with
      | Some _ => onResumeRender
      | None => ret tt
      end
  end.

(** One input together with the environment it arrives in.  An exception
    that leaves a handler is reported by the host; the state stays as the
    handler left it. *)
Definition react (p : Program) (s : St) (i : Env * Input) : St :=
  exec (handle p (snd i)) (fst i) s.

Definition react_all (p : Program) (inputs : list (Env * Input)) (s : St) : St :=
  fold_left (react p) inputs s.

(** The module as loaded: no forced view, no timer, nothing subscribed. *)
Definition fresh : St :=
  {| renderingView := None; timer := None; next_interval := 1;
     rendered := ∅; subscribed := false; trace := [] |}.

(** * Notions used in the statements and proofs *)

(** ** The page iterator, as the specification words it *)

(** The iteration as the specification words it: the views are visited in
    the order given; a visit that raises is logged and skipped; the first
    defined result ends the scan. *)
Fixpoint visit_in_order {S R} `{Emits S}
    (visit : ref -> M S (option R)) (views : list ref) : M S (option R) :=
  fun e s =>
    match views with
    | [] => (Normal None, s)
    | page :: rest =>
        match visit page e s with
        | (Normal (Some r), s') => (Normal (Some r), s')
        | (Normal None, s') => visit_in_order visit rest e s'
        | (Throw x, s') =>
            visit_in_order visit rest e (emit (ConsoleErrorIterating x) s')
        end
    end.

(** ** The forced-render driver *)

(** "Not yet rendered": the text layer is missing, or its [div] has fewer
    than one child node. *)
Definition unrendered (e : Env) (page : ref) : bool :=
  match textLayer (view e page) with
  | None => true
  | Some layer => childNodes_length layer <? 1
  end.

(** Forcing a view: it becomes [renderingView] in the programs that have
    this variable, and the rendering queue is asked to render it. *)
Definition force (p : Program) (page : ref) (s : St) : St :=
  St_emit (RenderView page)
    (if has_watchdog p then set_renderingView (Some page) s else s).

(** The first view that is not yet rendered, scanning from the last page
    to the first. *)
Definition next_page (e : Env) : option ref :=
  List.find (unrendered e) (rev (_pages e)).

Definition force_next (p : Program) (e : Env) (s : St) : St :=
  match next_page e with
  | Some page => force p page s
  | None => s
  end.

(** ** Traces *)

(** Several actions in a row. *)
Definition emit_all (l : list Effect) (s : St) : St :=
  {| renderingView := renderingView s; timer := timer s;
     next_interval := next_interval s; rendered := rendered s;
     subscribed := subscribed s; trace := trace s ++ l |}.

(** Kinds of actions looked for in a trace. *)
Definition is_off (x : Effect) : bool :=
  match x with EventBusOff => true | _ => false end.

Definition is_dispatch (x : Effect) : bool :=
  match x with DispatchDocumentRendered _ => true | _ => false end.

Definition is_render (x : Effect) : bool :=
  match x with RenderView _ => true | _ => false end.

(** Console output, timer calls and notices. *)
Definition is_bookkeeping (x : Effect) : bool :=
  match x with
  | ConsoleErrorIterating _ | ConsoleWarnAlreadyRendered _
  | ConsoleLogPageRendered _ _ _ | ConsoleInfoAllRendered
  | ConsoleErrorNoContainer _ | ConsoleLogAverage _ _ _
  | SetInterval _ | ClearInterval _ | Alert _ => true
  | _ => false
  end.

(** Writes to the loading dialog. *)
Definition is_progress (x : Effect) : bool :=
  match x with
  | RemoveVisible | SetMeterValue _ | SetVisible => true
  | _ => false
  end.

(** ** The eligibility heuristic *)

(** The text of the page containers that are found among the pages
    [p], ..., [p + remaining - 1], and the log lines for the others. *)
Fixpoint located (e : Env) (remaining p : nat) : list JsString :=
  match remaining with
  | O => []
  | S r =>
      match page_container e p with
      | Some text => text :: located e r (S p)
      | None => located e r (S p)
      end
  end.

Fixpoint not_located (e : Env) (remaining p : nat) : list Effect :=
  match remaining with
  | O => []
  | S r =>
      match page_container e p with
      | Some _ => not_located e r (S p)
      | None => ConsoleErrorNoContainer p :: not_located e r (S p)
      end
  end.

(** The word count of one page, and the sums over the pages found. *)
Definition pwords (text : JsString) : nat := length (split_spaces text).

Fixpoint sum_len (texts : list JsString) : Z :=
  match texts with
  | [] => 0
  | text :: rest =>
      (Z.of_nat (length text) - Z.of_nat (pwords text) + sum_len rest)%Z
  end.

Fixpoint sum_words (texts : list JsString) : nat :=
  match texts with
  | [] => 0
  | text :: rest => pwords text + sum_words rest
  end.

(** The state in which [finish] leaves the module. *)
Definition finished (p : Program) (count : nat) (e : Env) (s : St) : St :=
  let len := sum_len (located e count 1) in
  let words := sum_words (located e count 1) in
  let avg := num_div len (Z.of_nat words) in
  let eligible := enableHighlights_of avg in
  let before :=
    if has_heuristic p then
      not_located e count 1 ++ [ConsoleLogAverage avg len words]
      ++ (if eligible then [] else [Alert Unsupported])
    else [] in
  let detail := if has_heuristic p then Some eligible else None in
  set_subscribed false
    (emit_all (before ++ [ConsoleInfoAllRendered; EventBusOff;
                          DispatchDocumentRendered detail]) s).

(** The [detail] of the 'documentrendered' event. *)
Definition terminal_detail (p : Program) (count : nat) (e : Env) : option bool :=
  if has_heuristic p then
    Some (enableHighlights_of
            (num_div (sum_len (located e count 1))
                     (Z.of_nat (sum_words (located e count 1)))))
  else None.

(** ** The completion aggregator *)

(** The promises collected by [getAllRenderPromises]: one for every view
    that is not paused and has a paint task, last page first. *)
Definition in_flight_of (e : Env) (page : ref) : list Promise :=
  match paintTask (view e page) with
  | Some task =>
      if negb (RenderingStates_eqb (renderingState (view e page)) PAUSED)
      then [promise task] else []
  | None => []
  end.

Definition in_flight (e : Env) : list Promise :=
  flat_map (in_flight_of e) (rev (_pages e)).

(** The state after [stopTimer], [startTimer] and the marking of a page. *)
Definition stop (s : St) : St :=
  match timer s with
  | Some id => set_timer None (St_emit (ClearInterval id) s)
  | None => s
  end.

Definition start (s : St) : St :=
  let s1 := stop s in
  let id := next_interval s1 in
  set_timer (Some id) (set_next_interval (S id) (St_emit (SetInterval id) s1)).

Definition mark (num : Z) (s : St) : St :=
  if bool_decide (rendered s !! num = Some true)
  then St_emit (ConsoleWarnAlreadyRendered num) s
  else set_rendered (<[num := true]> (rendered s)) s.

(** [done / count * 100]. *)
Definition progress_of (done count : nat) : Num :=
  num_times100 (num_div (Z.of_nat done) (Z.of_nat count)).

(** The actions of each step of [onRendered], as lists. *)
Definition stop_effects (s : St) : list Effect :=
  match timer s with
  | Some id => [ClearInterval id]
  | None => []
  end.

Definition mark_effects (num : Z) (s : St) : list Effect :=
  if bool_decide (rendered s !! num = Some true)
  then [ConsoleWarnAlreadyRendered num] else [].

Definition progress_effects (progress : Num) (e : Env) : list Effect :=
  match loading_dlgbox e with
  | None => []
  | Some box =>
      if num_ge progress 100 then [RemoveVisible]
      else if progress_meter box
           then [SetMeterValue (Math_round progress); SetVisible]
           else []
  end.

(** Whether [updateInitialLoadingProgress] raises. *)
Definition progress_raises (progress : Num) (e : Env) : bool :=
  match loading_dlgbox e with
  | None => false
  | Some box => negb (num_ge progress 100) && negb (progress_meter box)
  end.

Definition force_effects (e : Env) : list Effect :=
  match next_page e with
  | Some page => [RenderView page]
  | None => []
  end.

Definition finish_effects (p : Program) (count : nat) (e : Env) : list Effect :=
  let len := sum_len (located e count 1) in
  let words := sum_words (located e count 1) in
  let avg := num_div len (Z.of_nat words) in
  let eligible := enableHighlights_of avg in
  (if has_heuristic p then
     not_located e count 1 ++ [ConsoleLogAverage avg len words]
     ++ (if eligible then [] else [Alert Unsupported])
   else [])
  ++ [ConsoleInfoAllRendered; EventBusOff;
      DispatchDocumentRendered (if has_heuristic p then Some eligible else None)].

(** The number of pages done once the page of the event is marked. *)
Definition done_after (pageNumber : Z) (s : St) : nat :=
  size (<[(pageNumber - 1)%Z := true]> (rendered s)).

(** How the handler ends: it raises in the progress update, waits for the
    renders in flight, forces the next page, or finishes the cycle. *)
Inductive Branch : Type := Aborted | Waiting | Forcing | Finishing.

Definition branch (pageNumber : Z) (e : Env) (s : St) : Branch :=
  let done := done_after pageNumber s in
  let count := app_pagesCount e in
  if progress_raises (progress_of done count) e then Aborted
  else if 0 <? length (in_flight e) then Waiting
  else if done <? count then Forcing
  else Finishing.

(** All the actions of one call of [onRendered]. *)
Definition handler_effects (p : Program) (pageNumber : Z) (e : Env) (s : St)
  : list Effect :=
  let num := (pageNumber - 1)%Z in
  let done := done_after pageNumber s in
  let count := app_pagesCount e in
  (if has_watchdog p then stop_effects s else [])
  ++ mark_effects num s
  ++ [ConsoleLogPageRendered num done count]
  ++ progress_effects (progress_of done count) e
  ++ match branch pageNumber e s with
     | Aborted | Waiting => []
     | Forcing =>
         (if has_watchdog p then [SetInterval (next_interval s)] else [])
         ++ force_effects e
     | Finishing => finish_effects p count e
     end.

(** The page indices of the page-rendered events among the inputs. *)
Fixpoint delivered_indices (inputs : list (Env * Input)) : list Z :=
  match inputs with
  | [] => []
  | (_, TextLayerRendered pageNumber) :: rest =>
      (pageNumber - 1)%Z :: delivered_indices rest
  | (_, IntervalElapsed) :: rest => delivered_indices rest
  end.

(** While the handler is subscribed it has neither unsubscribed nor
    dispatched 'documentrendered'; the program without a watchdog never
    arms an interval. *)
Definition cycle_inv (p : Program) (s : St) : Prop :=
  (subscribed s = true ->
   List.filter is_off (trace s) = [] /\ List.filter is_dispatch (trace s) = [])
  /\ (has_watchdog p = false -> timer s = None).

(** ** Further notions *)

(** Calls of [setInterval] and [clearInterval]. *)
Definition is_timer (x : Effect) : bool :=
  match x with SetInterval _ | ClearInterval _ => true | _ => false end.

Definition is_alert (x : Effect) : bool :=
  match x with Alert _ => true | _ => false end.

(** A 'documentrendered' event with, and without, the [enableHighlights]
    detail. *)
Definition is_flagged_dispatch (x : Effect) : bool :=
  match x with DispatchDocumentRendered (Some _) => true | _ => false end.

Definition is_plain_dispatch (x : Effect) : bool :=
  match x with DispatchDocumentRendered None => true | _ => false end.

(** The intervals that a trace has set and not cleared since, oldest
    first. *)
Definition interval_step (live : list nat) (x : Effect) : list nat :=
  match x with
  | SetInterval id => live ++ [id]
  | ClearInterval id => List.filter (fun i => negb (i =? id)) live
  | _ => live
  end.

Definition live_intervals (tr : list Effect) : list nat :=
  fold_left interval_step tr [].

(** The interval held in [timer], as a list. *)
Definition timer_list (s : St) : list nat :=
  match timer s with
  | Some id => [id]
  | None => []
  end.


(** The page numbers from 1 to [count] whose container is not found. *)
Definition missing_pages (e : Env) (count : nat) : list nat :=
  List.filter (fun p => match page_container e p with Some _ => false | None => true end)
    (seq 1 count).

(** The number of page-rendered events among the inputs. *)
Definition page_events (inputs : list (Env * Input)) : nat :=
  length (delivered_indices inputs).

(** ** Concrete documents *)

(** A view with no text layer and no paint task. *)
Definition no_view : PageView :=
  {| renderingState := FINISHED; paintTask := None; textLayer := None |}.

(** A document whose loading dialog exists but holds no [progress]
    element. *)
Definition dialog_without_meter : Env :=
  {| _pages := []; view := fun _ => no_view; keepTextLayers := true;
     viewer_pagesCount := 0; app_pagesCount := 0;
     loading_dlgbox := Some {| progress_meter := false |};
     page_container := fun _ => None |}.

(** 150 pages, in a viewer that does not keep text layers. *)
Definition large_document_no_text_layers : Env :=
  {| _pages := seq 0 150; view := fun _ => no_view; keepTextLayers := false;
     viewer_pagesCount := 150; app_pagesCount := 150;
     loading_dlgbox := Some {| progress_meter := true |};
     page_container := fun _ => None |}.

(** 150 pages, in a viewer that keeps text layers. *)
Definition large_document : Env :=
  {| _pages := seq 0 150; view := fun _ => no_view; keepTextLayers := true;
     viewer_pagesCount := 150; app_pagesCount := 150;
     loading_dlgbox := Some {| progress_meter := true |};
     page_container := fun _ => None |}.

(** A page whose container holds no text at all. *)
Definition one_empty_page : Env :=
  {| _pages := [0]; view := fun _ => no_view; keepTextLayers := true;
     viewer_pagesCount := 1; app_pagesCount := 1;
     loading_dlgbox := None;
     page_container := fun p => if p =? 1 then Some [] else None |}.

(** A view whose text layer holds one node. *)
Definition rendered_view : PageView :=
  {| renderingState := FINISHED; paintTask := None;
     textLayer := Some {| childNodes_length := 1 |} |}.

(** A document of [n] pages, all rendered, nothing in flight, the loading
    dialog and its meter in place, every page holding the text "hi". *)
Definition document (n : nat) : Env :=
  {| _pages := seq 0 n; view := fun _ => rendered_view; keepTextLayers := true;
     viewer_pagesCount := n; app_pagesCount := n;
     loading_dlgbox := Some {| progress_meter := true |};
     page_container := fun _ => Some [104; 105]%N |}.

(** Three pages, delivered as 3, 2, 1 to a cycle started by [run]. *)
Definition three_page_run : St :=
  react_all Watchdog
    [(document 3, TextLayerRendered 3); (document 3, TextLayerRendered 2);
     (document 3, TextLayerRendered 1)]
    (exec (run Watchdog) (document 3) fresh).

(** Pages 10, 11, 12: the last one is rendered, the other two are not; the
    view 11 is paused. *)
Definition paused_view : PageView :=
  {| renderingState := PAUSED; paintTask := Some {| promise := 1 |};
     textLayer := None |}.

Definition half_rendered : Env :=
  {| _pages := [10; 11; 12];
     view := fun r => if r =? 12 then rendered_view
                      else if r =? 11 then paused_view else no_view;
     keepTextLayers := true; viewer_pagesCount := 3; app_pagesCount := 3;
     loading_dlgbox := Some {| progress_meter := true |};
     page_container := fun _ => Some [104; 105]%N |}.

(** A visit that raises on view 12, returns 11 on view 11 and would return
    10 on view 10. *)
Definition picky_visit (page : ref) : M St (option nat) :=
  if page =? 12 then throw (Raised 7) else ret (Some page).

(** Two pages; the second is being painted, the first is not yet
    rendered. *)
Definition running_view : PageView :=
  {| renderingState := RUNNING; paintTask := Some {| promise := 2 |};
     textLayer := None |}.

Definition busy_document : Env :=
  {| _pages := [0; 1];
     view := fun r => if r =? 1 then running_view else no_view;
     keepTextLayers := true; viewer_pagesCount := 2; app_pagesCount := 2;
     loading_dlgbox := Some {| progress_meter := true |};
     page_container := fun _ => Some [104; 105]%N |}.


(** A cycle of [Watchdog] on three rendered pages, after the event for
    page 3. *)
Definition after_first_event : St :=
  react Watchdog (exec (run Watchdog) (document 3) fresh)
    (document 3, TextLayerRendered 3).

(** * Properties *)

(** ** The page iterator *)

Section PageIterator.
Context {S R : Type} `{Emits S}.
Variable callback : ref -> M S (option R).

Lemma forEachView_loop_take (pages : list ref) (k : nat) (e : Env) (s : S) :
  k <= length pages ->
  forEachView_loop callback pages k e s
  = visit_in_order callback (rev (take k pages)) e s.
Proof.
  revert s. induction k as [|n IH]; intros s Hk.
  - reflexivity.
  - destruct (lookup_lt_is_Some_2 pages n) as [page Hpage]; [lia|].
    rewrite (take_S_r _ _ _ Hpage), rev_app_distr. simpl.
    rewrite Hpage. unfold bind, try_catch, ret, perform, modify.
    destruct (callback page e s) as [[[r|]|x] s']; simpl; auto.
    + apply IH; lia.
    + apply IH; lia.
Qed.

Lemma forEachView_rev (e : Env) (s : S) :
  forEachView callback e s
  = visit_in_order callback (rev (_pages e)) e s.
Proof.
  unfold forEachView, bind, ask.
  rewrite forEachView_loop_take by lia.
  now rewrite firstn_all.
Qed.

Lemma visit_in_order_normal (views : list ref) (e : Env) (s : S) :
  exists r s', visit_in_order callback views e s = (Normal r, s').
Proof.
  revert s. induction views as [|page rest IH]; intros s; simpl.
  - eauto.
  - destruct (callback page e s) as [[[r|]|x] s']; eauto.
Qed.

Lemma visit_in_order_undefined (views : list ref) (e : Env) (s : S) :
  (forall page s0, In page views ->
     fst (callback page e s0) = Normal None
     \/ exists x, fst (callback page e s0) = Throw x) ->
  fst (visit_in_order callback views e s) = Normal None.
Proof.
  revert s. induction views as [|page rest IH]; intros s Hall; simpl.
  - reflexivity.
  - destruct (Hall page s (or_introl eq_refl)) as [Hc|[x Hc]];
      destruct (callback page e s) as [[[r|]|y] s']; simpl in Hc;
      try discriminate; apply IH; intros; apply Hall; now right.
Qed.

(** A defined result is the result of the visit that ended the scan:
    every view before it (in visiting order) returned undefined or
    raised, no view after it is visited. *)
Lemma visit_in_order_defined (views : list ref) (e : Env) (s : S) r s' :
  visit_in_order callback views e s = (Normal (Some r), s') ->
  exists before page after s0,
    views = before ++ page :: after
    /\ callback page e s0 = (Normal (Some r), s')
    /\ fst (visit_in_order callback before e s) = Normal None
    /\ (s0 = snd (visit_in_order callback before e s)).
Proof.
  revert s. induction views as [|page rest IH]; intros s; simpl.
  - discriminate.
  - destruct (callback page e s) as [[[r0|]|x] s1] eqn:Hc.
    + intros [= -> ->]. exists [], page, rest, s. simpl. auto.
    + intros Hrest. destruct (IH _ Hrest) as (b & pg & a & s0 & -> & Hpg & Hb & Hs0).
      exists (page :: b), pg, a, s0. simpl. rewrite Hc. auto.
    + intros Hrest. destruct (IH _ Hrest) as (b & pg & a & s0 & -> & Hpg & Hb & Hs0).
      exists (page :: b), pg, a, s0. simpl. rewrite Hc. auto.
Qed.
End PageIterator.

(** C8. [forEachView] visits the views from the last index down to the
    first: it is the in-order scan of the reversed page array.  Hence a
    visit that raises is logged ([ConsoleErrorIterating]) and the scan goes
    on with the next view; the first visit returning a defined value ends
    the scan, that value is the result and the state is the one that visit
    left; when every visit returns undefined or raises the result is
    undefined.  [forEachView] itself never raises. *)
Theorem forEachView_contract {S R : Type} `{Emits S}
    (callback : ref -> M S (option R)) (e : Env) (s : S) :
  forEachView callback e s = visit_in_order callback (rev (_pages e)) e s
  /\ (exists r s', forEachView callback e s = (Normal r, s'))
  /\ (forall r s',
        forEachView callback e s = (Normal (Some r), s') ->
        exists before page after s0,
          rev (_pages e) = before ++ page :: after
          /\ callback page e s0 = (Normal (Some r), s')
          /\ fst (visit_in_order callback before e s) = Normal None
          /\ s0 = snd (visit_in_order callback before e s))
  /\ ((forall page s0, In page (_pages e) ->
         fst (callback page e s0) = Normal None
         \/ exists x, fst (callback page e s0) = Throw x) ->
      fst (forEachView callback e s) = Normal None).
Proof.
  rewrite forEachView_rev. repeat split.
  - apply visit_in_order_normal.
  - apply visit_in_order_defined.
  - intros Hall. apply visit_in_order_undefined.
    intros page s0 Hin. apply Hall. now apply in_rev.
Qed.

(** ** The forced-render driver *)

Lemma renderNextPage_force_next (p : Program) (e : Env) (s : St) :
  renderNextPage p e s = (Normal tt, force_next p e s).
Proof.
  unfold renderNextPage, bind at 1. rewrite forEachView_rev.
  unfold force_next, next_page.
  induction (rev (_pages e)) as [|page rest IH]; simpl.
  - reflexivity.
  - unfold bind at 1, ask at 1. unfold unrendered at 1.
    destruct (match textLayer (view e page) with
              | Some layer => childNodes_length layer <? 1
              | None => true end).
    + unfold force. destruct (has_watchdog p); reflexivity.
    + apply IH.
  Qed.

Lemma find_skip {A} (f : A -> bool) (skipped l : list A) :
  (forall y, In y skipped -> f y = false) ->
  List.find f (skipped ++ l) = List.find f l.
Proof.
  induction skipped as [|y r IH]; intros Hall; simpl.
  - reflexivity.
  - rewrite (Hall y) by now left. apply IH. intros; apply Hall; now right.
Qed.

Lemma find_last_match {A} (f : A -> bool) (before after : list A) (x : A) :
  f x = true ->
  (forall y, In y after -> f y = false) ->
  List.find f (rev (before ++ x :: after)) = Some x.
Proof.
  intros Hx Hafter. rewrite rev_app_distr. simpl. rewrite <- app_assoc.
  rewrite find_skip.
  - simpl. now rewrite Hx.
  - intros y Hy. apply Hafter. now apply in_rev.
Qed.

Lemma find_no_match {A} (f : A -> bool) (l : list A) :
  (forall y, In y l -> f y = false) -> List.find f (rev l) = None.
Proof.
  intros Hall. rewrite <- (app_nil_r (rev l)). rewrite find_skip; [reflexivity|].
  intros y Hy. apply Hall. now apply in_rev.
Qed.

(** C6. [renderNextPage] forces the view found first when the page array
    is scanned from its last index to its first for a view that is not yet
    rendered, and nothing else: that view is recorded in [renderingView]
    (in the programs that have it) and [renderView] is requested for it
    once.  So when the array is [before ++ page :: after] with [page] not
    yet rendered and all of [after] rendered, [page] is forced; when no
    view matches, the state is left as it was. *)
Theorem renderNextPage_forces_last_unrendered (p : Program) (e : Env) (s : St) :
  renderNextPage p e s
  = (Normal tt,
     match List.find (unrendered e) (rev (_pages e)) with
     | Some page => force p page s
     | None => s
     end)
  /\ (forall before page after,
        _pages e = before ++ page :: after ->
        (textLayer (view e page) = None
         \/ exists layer, textLayer (view e page) = Some layer
                          /\ childNodes_length layer < 1) ->
        (forall q, In q after ->
           exists layer, textLayer (view e q) = Some layer
                         /\ 1 <= childNodes_length layer) ->
        renderNextPage p e s = (Normal tt, force p page s)
        /\ trace (force p page s) = trace s ++ [RenderView page]
        /\ renderingView (force p page s)
           = (if has_watchdog p then Some page else renderingView s))
  /\ ((forall q, In q (_pages e) ->
         exists layer, textLayer (view e q) = Some layer
                       /\ 1 <= childNodes_length layer) ->
      renderNextPage p e s = (Normal tt, s)).
Proof.
  rewrite renderNextPage_force_next. unfold force_next, next_page.
  split; [reflexivity|]. split.
  - intros before page after Hpages Hpage Hafter.
    rewrite Hpages, find_last_match.
    + split; [reflexivity|]. unfold force. destruct (has_watchdog p); auto.
    + unfold unrendered. destruct Hpage as [->|(layer & -> & Hlt)]; [reflexivity|].
      apply Nat.ltb_lt. lia.
    + intros q Hq. destruct (Hafter q Hq) as (layer & Hl & Hge).
      unfold unrendered. rewrite Hl. apply Nat.ltb_ge. lia.
  - intros Hall. rewrite find_no_match; [reflexivity|].
    intros q Hq. destruct (Hall q Hq) as (layer & Hl & Hge).
    unfold unrendered. rewrite Hl. apply Nat.ltb_ge. lia.
Qed.

(** ** The stall watchdog *)

(** C7. [onResumeRender] requests [renderView] again for the recorded
    view, and for that view only, exactly when a view is recorded and its
    rendering state is [PAUSED]; with no recorded view, or a recorded view
    in any other state, it changes nothing. *)
Theorem onResumeRender_reissues_iff_paused (e : Env) (s : St) :
  (forall v, renderingView s = Some v ->
     renderingState (view e v) = PAUSED ->
     onResumeRender e s = (Normal tt, St_emit (RenderView v) s))
  /\ (forall v, renderingView s = Some v ->
       renderingState (view e v) <> PAUSED ->
       onResumeRender e s = (Normal tt, s))
  /\ (renderingView s = None -> onResumeRender e s = (Normal tt, s))
  /\ (trace (exec onResumeRender e s) <> trace s <->
      exists v, renderingView s = Some v
                /\ renderingState (view e v) = PAUSED
                /\ trace (exec onResumeRender e s) = trace s ++ [RenderView v]).
Proof.
  unfold exec, onResumeRender, renderView, bind, get, ask, ret, perform, modify,
    emit, St_Emits.
  destruct (renderingView s) as [v|]; simpl.
  - destruct (renderingState (view e v)) eqn:Hst; simpl.
    all: split; [intros w [= <-] Hp; first [reflexivity | congruence] |].
    all: split; [intros w [= <-] Hp; first [reflexivity | congruence] |].
    all: split; [discriminate|].
    all: split;
      [ intros Hne; first [now exists v | congruence]
      | intros (w & [= <-] & Hw & Ht); try congruence ].
    rewrite <- (app_nil_r (trace s)) at 2. intros Heq.
    apply app_inv_head in Heq. discriminate.
  - split; [discriminate|]. split; [discriminate|]. split; [reflexivity|].
    split; [congruence | intros (w & Hw & _); discriminate].
Qed.

(** ** The progress dialog *)

Lemma updateInitialLoadingProgress_cases (progress : Num) (e : Env) (s : St) :
  updateInitialLoadingProgress progress e s
  = match loading_dlgbox e with
    | None => (Normal tt, s)
    | Some box =>
        if num_ge progress 100 then (Normal tt, St_emit RemoveVisible s)
        else if progress_meter box
             then (Normal tt,
                   St_emit SetVisible
                     (St_emit (SetMeterValue (Math_round progress)) s))
             else (Throw TypeError, s)
    end.
Proof.
  unfold updateInitialLoadingProgress, bind, try_catch, ask, property_of.
  destruct (loading_dlgbox e) as [[meter]|]; simpl; [|reflexivity].
  destruct (num_ge progress 100); [reflexivity|].
  destruct meter; reflexivity.
Qed.

(** C4 fails on the code.  With the dialog present and no [progress]
    element below it, [querySelector] returns null without raising, the
    [try] block completes, and [meter.value = ...] raises a TypeError
    outside it: [updateInitialLoadingProgress(0)] throws, and so does
    [run], which calls it. *)
Theorem updateInitialLoadingProgress_raises_without_meter :
  (forall s : St,
     updateInitialLoadingProgress (num_of_Z 0) dialog_without_meter s
     = (Throw TypeError, s))
  /\ (forall p : Program,
        outcome (run p) dialog_without_meter fresh = Throw TypeError).
Proof.
  split.
  - intros s. now rewrite updateInitialLoadingProgress_cases.
  - intros p. destruct p; reflexivity.
Qed.

(** ** Once the handler is not subscribed and no interval is armed *)

Lemma react_idle (p : Program) (s : St) (i : Env * Input) :
  subscribed s = false -> timer s = None -> react p s i = s.
Proof.
  intros Hsub Htimer. destruct i as [e [pageNumber|]];
    unfold react, exec, handle, bind, get; simpl.
  - now rewrite Hsub.
  - now rewrite Htimer.
Qed.

Lemma react_all_idle (p : Program) (inputs : list (Env * Input)) (s : St) :
  subscribed s = false -> timer s = None -> react_all p inputs s = s.
Proof.
  intros Hsub Htimer. induction inputs as [|i rest IH]; simpl.
  - reflexivity.
  - now rewrite react_idle.
Qed.

(** ** The ceiling on the page count *)

(** C5 as stated fails: a page count above the ceiling does not by itself
    bring up the notice.  In a viewer that does not keep text layers the
    first guard of [onDocumentLoaded] returns before the page count is
    looked at. *)
Lemma capacity_notice_not_shown_without_text_layers :
  ~ (forall (e : Env) (s : St),
       MAX_CACHE_SIZE < viewer_pagesCount e ->
       In (Alert TooLarge) (trace (exec (run Highlights) e s))).
Proof.
  intros Hclaim.
  specialize (Hclaim large_document_no_text_layers fresh).
  simpl in Hclaim. apply Hclaim. unfold MAX_CACHE_SIZE. lia.
Qed.

(** C5, amended.  In the program with the ceiling, for a page count above
    100: when the viewer keeps text layers, [onDocumentLoaded] shows the
    capacity notice and does nothing else; when it does not, it does
    nothing at all.  Either way the handler is not subscribed, and from a
    fresh module no later input makes it force a page or dispatch
    'documentrendered': the state never changes again. *)
Theorem capacity_abort (e : Env) (s : St) :
  MAX_CACHE_SIZE < viewer_pagesCount e ->
  run Highlights e s
  = (Normal tt, if keepTextLayers e then St_emit (Alert TooLarge) s else s)
  /\ trace (exec (run Highlights) e fresh)
     = (if keepTextLayers e then [Alert TooLarge] else [])
  /\ subscribed (exec (run Highlights) e fresh) = false
  /\ (forall inputs : list (Env * Input),
        react_all Highlights inputs (exec (run Highlights) e fresh)
        = exec (run Highlights) e fresh).
Proof.
  intros Hlarge.
  assert (Hrun : forall s0, run Highlights e s0
    = (Normal tt, if keepTextLayers e then St_emit (Alert TooLarge) s0 else s0)).
  { intros s0. unfold run, bind, ask. simpl.
    destruct (keepTextLayers e); simpl; [|reflexivity].
    apply Nat.ltb_lt in Hlarge. now rewrite Hlarge. }
  split; [apply Hrun|]. unfold exec. rewrite Hrun. simpl.
  destruct (keepTextLayers e); simpl; repeat split; auto;
    intros inputs; now apply react_all_idle.
Qed.

Lemma capacity_abort_witness :
  trace (exec (run Highlights) large_document fresh) = [Alert TooLarge]
  /\ subscribed (exec (run Highlights) large_document fresh) = false.
Proof.
  assert (H : MAX_CACHE_SIZE < viewer_pagesCount large_document)
    by (vm_compute; lia).
  destruct (capacity_abort large_document fresh H) as (_ & Htrace & Hsub & _).
  split; [exact Htrace | exact Hsub].
Defined.

(** ** The eligibility heuristic *)

Lemma emit_all_nil (s : St) : emit_all [] s = s.
Proof. destruct s. unfold emit_all. simpl. now rewrite app_nil_r. Qed.

Lemma emit_all_emit (x : Effect) (l : list Effect) (s : St) :
  emit_all l (St_emit x s) = emit_all (x :: l) s.
Proof. unfold emit_all, St_emit. simpl. now rewrite <- app_assoc. Qed.

Lemma sum_pages_closed (e : Env) (r p : nat) (len : Z) (words : nat) (s : St) :
  sum_pages r p len words e s
  = (Normal ((len + sum_len (located e r p))%Z, words + sum_words (located e r p)),
     emit_all (not_located e r p) s).
Proof.
  revert p len words s. induction r as [|r IH]; intros p len words s; simpl.
  - unfold ret. now rewrite emit_all_nil, Z.add_0_r, Nat.add_0_r.
  - unfold bind at 1, ask at 1.
    destruct (page_container e p) as [text|]; simpl.
    + rewrite IH. fold (pwords text). do 2 f_equal. f_equal; lia.
    + unfold bind at 1, perform, modify. rewrite IH.
      unfold emit at 1, St_Emits. now rewrite emit_all_emit.
Qed.

Lemma split_loop_nonempty (in_run : bool) (piece text : JsString) :
  1 <= length (split_loop in_run piece text).
Proof.
  revert in_run piece. induction text as [|c rest IH]; intros in_run piece; simpl.
  - lia.
  - destruct (is_space c); [destruct in_run|]; simpl; solve [auto | lia].
Qed.

Lemma pwords_positive (text : JsString) : 1 <= pwords text.
Proof. apply split_loop_nonempty. Qed.

Lemma sum_words_zero (texts : list JsString) :
  sum_words texts = 0 <-> texts = [].
Proof.
  destruct texts as [|text rest]; simpl; [tauto|].
  pose proof (pwords_positive text). split; [lia | discriminate].
Qed.

Lemma located_nil (e : Env) (r p : nat) :
  located e r p = [] <->
  (forall q, p <= q < p + r -> page_container e q = None).
Proof.
  revert p. induction r as [|r IH]; intros p; simpl.
  - split; [intros _ q Hq; lia | reflexivity].
  - destruct (page_container e p) as [text|] eqn:Hp.
    + split; [discriminate|]. intros Hall.
      rewrite Hall in Hp by lia. discriminate.
    + rewrite IH. split; intros Hall q Hq.
      * destruct (Nat.eq_dec q p) as [->|Hne]; [assumption|]. apply Hall. lia.
      * apply Hall. lia.
Qed.

Lemma Qlt_bool_iff (a b : Q) : Qlt_bool a b = true <-> (a < b)%Q.
Proof.
  unfold Qlt_bool. rewrite negb_true_iff, <- not_true_iff_false, Qle_bool_iff.
  split; [apply Qnot_le_lt | apply Qlt_not_le].
Qed.

Lemma enableHighlights_of_iff (wordLen : Num) :
  enableHighlights_of wordLen = true <->
  exists q, wordLen = Fin q /\ (1 < q)%Q /\ (q < 10)%Q.
Proof.
  unfold enableHighlights_of. rewrite andb_true_iff.
  destruct wordLen as [| | |q]; simpl.
  1-3: split; [intros [? ?]; discriminate | intros (q & ? & _); discriminate].
  rewrite !Qlt_bool_iff. split.
  - intros [H1 H10]. exists q. auto.
  - intros (q' & [= <-] & H1 & H10). auto.
Qed.

Lemma calculateAverageWordLength_closed (count : nat) (e : Env) (s : St) :
  let len := sum_len (located e count 1) in
  let words := sum_words (located e count 1) in
  let avg := num_div len (Z.of_nat words) in
  calculateAverageWordLength count e s
  = (Normal avg,
     St_emit (ConsoleLogAverage avg len words)
       (emit_all (not_located e count 1) s)).
Proof.
  unfold calculateAverageWordLength, bind at 1.
  now rewrite sum_pages_closed.
Qed.

Lemma finish_finished (p : Program) (count : nat) (e : Env) (s : St) :
  finish p count e s = (Normal tt, finished p count e s).
Proof.
  unfold finish, finished, bind.
  destruct (has_heuristic p).
  - rewrite calculateAverageWordLength_closed. cbv zeta.
    destruct (enableHighlights_of _);
      unfold eventBus_off, bind, perform, modify, ret, emit, St_Emits,
        set_subscribed, emit_all, St_emit;
      simpl; rewrite <- ?app_assoc; simpl; rewrite <- ?app_assoc; reflexivity.
  - unfold eventBus_off, bind, perform, modify, ret, emit, St_Emits,
      set_subscribed, emit_all, St_emit.
    simpl. rewrite <- ?app_assoc. reflexivity.
Qed.

(** C3. The classification [wordLen > 1 && wordLen < MAX_AVG_WORD_LENGTH]
    holds exactly for the finite averages strictly between 1 and 10; an
    average equal to 1 or to 10 is rejected.  For every document the
    heuristic returns normally; applied when all pages are done, [finish]
    returns normally too, shows the notice exactly when the average is
    rejected and dispatches 'documentrendered' carrying the
    classification.  With zero words the average is 0/0 = NaN, which is
    rejected. *)
Theorem eligibility_open_interval (e : Env) (s : St) (count : nat) :
  (forall wordLen : Num,
     enableHighlights_of wordLen = true <->
     exists q, wordLen = Fin q /\ (1 < q)%Q /\ (q < 10)%Q)
  /\ (forall q : Q,
        (q == 1)%Q \/ (q == 10)%Q -> enableHighlights_of (Fin q) = false)
  /\ exists (len : Z) (words : nat) (s1 s2 : St),
       let avg := num_div len (Z.of_nat words) in
       sum_pages count 1 0 0 e s = (Normal (len, words), s1)
       /\ outcome (calculateAverageWordLength count) e s = Normal avg
       /\ finish Highlights count e s = (Normal tt, s2)
       /\ trace s2
          = trace s1 ++ [ConsoleLogAverage avg len words]
            ++ (if enableHighlights_of avg then [] else [Alert Unsupported])
            ++ [ConsoleInfoAllRendered; EventBusOff;
                DispatchDocumentRendered (Some (enableHighlights_of avg))]
       /\ (words = 0 -> avg = NaN /\ enableHighlights_of avg = false).
Proof.
  split; [apply enableHighlights_of_iff|]. split.
  - intros q Hq. unfold enableHighlights_of, num_gt, num_lt, Qlt_bool.
    destruct Hq as [Hq|Hq].
    + assert (Hle : Qle_bool q (inject_Z 1) = true).
      { apply Qle_bool_iff. rewrite Hq. apply Qle_refl. }
      now rewrite Hle.
    + assert (Hle : Qle_bool (inject_Z MAX_AVG_WORD_LENGTH) q = true).
      { apply Qle_bool_iff. rewrite Hq. apply Qle_refl. }
      rewrite Hle. apply andb_false_r.
  - exists (sum_len (located e count 1)), (sum_words (located e count 1)),
      (emit_all (not_located e count 1) s), (finished Highlights count e s).
    cbv zeta. rewrite sum_pages_closed, finish_finished.
    unfold outcome. rewrite calculateAverageWordLength_closed. simpl.
    do 3 (split; [reflexivity|]). split.
    + destruct (enableHighlights_of _); simpl;
        rewrite <- ?app_assoc; simpl; rewrite <- ?app_assoc; reflexivity.
    + intros Hwords. apply sum_words_zero in Hwords. rewrite Hwords.
      split; reflexivity.
Qed.

(** C10. [text.split(/\s+/)] has at least one element, exactly one for the
    empty string, so every page container that is found adds at least 1 to
    [words], and [len] goes down by the same number: for a page with empty
    text [len] becomes -1.  The total [words] is zero exactly when no page
    container is found for any page from 1 to [totalPages]; the average is
    then 0/0 = NaN, which is not greater than 1, and the document is
    classified ineligible. *)
Theorem empty_container_counts_one_word (e : Env) (s : St) (count : nat) :
  (forall text : JsString, 1 <= length (split_spaces text))
  /\ length (split_spaces []) = 1
  /\ (forall (r p : nat) (len : Z) (words : nat) (text : JsString),
        page_container e p = Some text ->
        let pwords := length (split_spaces text) in
        sum_pages (S r) p len words e s
        = sum_pages r (S p)
            (len + Z.of_nat (length text) - Z.of_nat pwords)%Z
            (words + pwords) e s)
  /\ sum_pages 1 1 0 0 one_empty_page s = (Normal ((-1)%Z, 1), s)
  /\ exists (len : Z) (words : nat) (s1 : St),
       sum_pages count 1 0 0 e s = (Normal (len, words), s1)
       /\ (words = 0 <->
           forall p, 1 <= p <= count -> page_container e p = None)
       /\ (words = 0 ->
           outcome (calculateAverageWordLength count) e s = Normal NaN
           /\ num_gt NaN 1 = false
           /\ enableHighlights_of NaN = false
           /\ exists s2,
                finish Highlights count e s = (Normal tt, s2)
                /\ In (Alert Unsupported) (trace s2)
                /\ In (DispatchDocumentRendered (Some false)) (trace s2)).
Proof.
  split; [apply pwords_positive|]. split; [reflexivity|]. split.
  { intros r p len words text Hp. simpl. unfold bind at 1, ask at 1.
    now rewrite Hp. }
  split; [reflexivity|].
  exists (sum_len (located e count 1)), (sum_words (located e count 1)),
    (emit_all (not_located e count 1) s).
  rewrite sum_pages_closed. split; [reflexivity|]. split.
  - rewrite sum_words_zero, located_nil.
    split; intros Hall p Hp; apply Hall; lia.
  - intros Hwords. unfold outcome.
    rewrite calculateAverageWordLength_closed, finish_finished. cbv zeta.
    assert (Hlen : sum_len (located e count 1) = 0%Z).
    { apply sum_words_zero in Hwords. now rewrite Hwords. }
    rewrite Hwords, Hlen. simpl. repeat split.
    eexists. split; [reflexivity|].
    unfold finished. rewrite Hwords, Hlen.
    change (enableHighlights_of (num_div 0 (Z.of_nat 0))) with false.
    cbn [has_heuristic trace set_subscribed emit_all].
    rewrite !in_app_iff. simpl. tauto.
Qed.

(** ** The completion aggregator *)

Lemma getAllRenderPromises_in_flight (e : Env) (s : St) :
  getAllRenderPromises e s = (Normal (in_flight e), s).
Proof.
  unfold getAllRenderPromises, in_flight. rewrite forEachView_rev.
  match goal with
  | |- context [visit_in_order ?f _ _ _] =>
      assert (Hscan : forall views acc,
                visit_in_order f views e (s, acc)
                = (Normal None, (s, acc ++ flat_map (in_flight_of e) views)))
  end.
  { induction views as [|page rest IH]; intros acc; simpl.
    - now rewrite app_nil_r.
    - unfold bind at 1, ask at 1, in_flight_of at 1.
      destruct (paintTask (view e page)) as [task|]; simpl.
      + destruct (RenderingStates_eqb (renderingState (view e page)) PAUSED); simpl.
        * apply IH.
        * rewrite IH, <- app_assoc. reflexivity.
      + apply IH. }
  now rewrite Hscan.
Qed.

Lemma stopTimer_stop (e : Env) (s : St) : stopTimer e s = (Normal tt, stop s).
Proof.
  unfold stopTimer, stop, bind, get. simpl. now destruct (timer s).
Qed.

Lemma startTimer_start (e : Env) (s : St) : startTimer e s = (Normal tt, start s).
Proof.
  unfold startTimer, start, bind at 1. now rewrite stopTimer_stop.
Qed.

Lemma mark_rendered_mark (num : Z) (e : Env) (s : St) :
  mark_rendered num e s = (Normal tt, mark num s).
Proof.
  unfold mark_rendered, mark, bind, get. simpl.
  now destruct (bool_decide (rendered s !! num = Some true)).
Qed.

Lemma onRendered_unfold (p : Program) (pageNumber : Z) (e : Env) (s : St) :
  onRendered p pageNumber e s
  = let num := (pageNumber - 1)%Z in
    let s1 := mark num (if has_watchdog p then stop s else s) in
    let done := size (rendered s1) in
    let count := app_pagesCount e in
    let s2 := St_emit (ConsoleLogPageRendered num done count) s1 in
    match updateInitialLoadingProgress (progress_of done count) e s2 with
    | (Throw x, s3) => (Throw x, s3)
    | (Normal _, s3) =>
        if 0 <? length (in_flight e) then (Normal tt, s3)
        else if done <? count
             then (Normal tt,
                   force_next p e (if has_watchdog p then start s3 else s3))
             else (Normal tt, finished p count e s3)
    end.
Proof.
  unfold onRendered. cbv zeta.
  unfold bind at 1.
  assert (Hstop : (if has_watchdog p then stopTimer else ret tt) e s
                  = (Normal tt, if has_watchdog p then stop s else s)).
  { destruct (has_watchdog p); [apply stopTimer_stop | reflexivity]. }
  rewrite Hstop. unfold bind at 1. rewrite mark_rendered_mark.
  unfold bind at 1, ask at 1. unfold bind at 1, get at 1.
  unfold bind at 1, perform at 1, modify at 1.
  unfold bind at 1. unfold emit at 1, St_Emits, progress_of.
  destruct (updateInitialLoadingProgress _ e _) as [[[]|x] s3]; [|reflexivity].
  unfold bind at 1. rewrite getAllRenderPromises_in_flight.
  destruct (0 <? length (in_flight e)); [reflexivity|].
  destruct (_ <? app_pagesCount e).
  - unfold bind at 1.
    assert (Hstart : (if has_watchdog p then startTimer else ret tt) e s3
                     = (Normal tt, if has_watchdog p then start s3 else s3)).
    { destruct (has_watchdog p); [apply startTimer_start | reflexivity]. }
    rewrite Hstart. apply renderNextPage_force_next.
  - apply finish_finished.
Qed.

(** *** What each step does to the fields of the state *)

Lemma updateInitialLoadingProgress_effects (progress : Num) (e : Env) (s : St) :
  updateInitialLoadingProgress progress e s
  = (if progress_raises progress e then Throw TypeError else Normal tt,
     emit_all (progress_effects progress e) s).
Proof.
  rewrite updateInitialLoadingProgress_cases.
  unfold progress_raises, progress_effects.
  destruct (loading_dlgbox e) as [[meter]|]; simpl.
  - destruct (num_ge progress 100); simpl; [reflexivity|].
    destruct meter; simpl; [|now rewrite emit_all_nil].
    unfold emit_all, St_emit. simpl. now rewrite <- app_assoc.
  - now rewrite emit_all_nil.
Qed.

Lemma stop_fields (s : St) :
  timer (stop s) = None
  /\ next_interval (stop s) = next_interval s
  /\ rendered (stop s) = rendered s
  /\ subscribed (stop s) = subscribed s
  /\ trace (stop s) = trace s ++ stop_effects s.
Proof.
  unfold stop, stop_effects. destruct (timer s) eqn:Ht; simpl; auto.
  now rewrite app_nil_r.
Qed.

Lemma start_fields (s : St) :
  timer (start s) = Some (next_interval s)
  /\ rendered (start s) = rendered s
  /\ subscribed (start s) = subscribed s
  /\ trace (start s) = trace s ++ stop_effects s ++ [SetInterval (next_interval s)].
Proof.
  destruct (stop_fields s) as (_ & Hn & Hr & Hs & Ht).
  unfold start. simpl. rewrite Hn, Ht, <- app_assoc. auto.
Qed.

Lemma mark_fields (num : Z) (s : St) :
  timer (mark num s) = timer s
  /\ next_interval (mark num s) = next_interval s
  /\ rendered (mark num s) = <[num := true]> (rendered s)
  /\ subscribed (mark num s) = subscribed s
  /\ trace (mark num s) = trace s ++ mark_effects num s.
Proof.
  unfold mark, mark_effects. case_bool_decide as Hdup; simpl.
  - rewrite insert_id by assumption. auto.
  - rewrite app_nil_r. auto.
Qed.

Lemma force_next_fields (p : Program) (e : Env) (s : St) :
  timer (force_next p e s) = timer s
  /\ rendered (force_next p e s) = rendered s
  /\ subscribed (force_next p e s) = subscribed s
  /\ trace (force_next p e s) = trace s ++ force_effects e.
Proof.
  unfold force_next, force_effects, force.
  destruct (next_page e); [destruct (has_watchdog p)|]; simpl; auto.
  now rewrite app_nil_r.
Qed.

Lemma finished_fields (p : Program) (count : nat) (e : Env) (s : St) :
  timer (finished p count e s) = timer s
  /\ rendered (finished p count e s) = rendered s
  /\ subscribed (finished p count e s) = false
  /\ trace (finished p count e s) = trace s ++ finish_effects p count e.
Proof. unfold finished, finish_effects. simpl. auto. Qed.

(** *** What one call of [onRendered] does *)

Lemma onRendered_fields (p : Program) (pageNumber : Z) (e : Env) (s : St) :
  let s' := exec (onRendered p pageNumber) e s in
  trace s' = trace s ++ handler_effects p pageNumber e s
  /\ rendered s' = <[(pageNumber - 1)%Z := true]> (rendered s)
  /\ subscribed s'
     = match branch pageNumber e s with
       | Finishing => false
       | _ => subscribed s
       end
  /\ timer s'
     = (if has_watchdog p then
          match branch pageNumber e s with
          | Forcing => Some (next_interval s)
          | _ => None
          end
        else timer s)
  /\ outcome (onRendered p pageNumber) e s
     = match branch pageNumber e s with
       | Aborted => Throw TypeError
       | _ => Normal tt
       end.
Proof.
  cbv zeta. unfold exec, outcome. rewrite onRendered_unfold. cbv zeta.
  rewrite updateInitialLoadingProgress_effects.
  set (num := (pageNumber - 1)%Z).
  set (s0 := if has_watchdog p then stop s else s).
  assert (H0 : timer s0 = (if has_watchdog p then None else timer s)
               /\ next_interval s0 = next_interval s
               /\ rendered s0 = rendered s
               /\ subscribed s0 = subscribed s
               /\ trace s0 = trace s ++ (if has_watchdog p then stop_effects s else [])).
  { subst s0. destruct (has_watchdog p); [apply stop_fields|].
    rewrite app_nil_r. auto. }
  destruct H0 as (Ht0 & Hn0 & Hr0 & Hs0 & Htr0).
  destruct (mark_fields num s0) as (Ht1 & Hn1 & Hr1 & Hs1 & Htr1).
  assert (Hm : mark_effects num s0 = mark_effects num s)
    by (unfold mark_effects; now rewrite Hr0).
  rewrite Hr0 in Hr1. rewrite Hm, Htr0 in Htr1. rewrite Ht0 in Ht1.
  rewrite Hn0 in Hn1. rewrite Hs0 in Hs1.
  unfold handler_effects, branch, done_after. fold num. rewrite Hr1.
  set (done := size (<[num := true]> (rendered s))).
  set (count := app_pagesCount e).
  set (s1 := mark num s0) in *.
  assert (H3 : forall l x,
    timer (emit_all l (St_emit x s1)) = timer s1
    /\ next_interval (emit_all l (St_emit x s1)) = next_interval s1
    /\ rendered (emit_all l (St_emit x s1)) = rendered s1
    /\ subscribed (emit_all l (St_emit x s1)) = subscribed s1
    /\ trace (emit_all l (St_emit x s1)) = (trace s1 ++ [x]) ++ l)
    by (intros; simpl; auto).
  destruct (H3 (progress_effects (progress_of done count) e)
              (ConsoleLogPageRendered num done count))
    as (Ht3 & Hn3 & Hr3 & Hs3 & Htr3).
  clear H3. set (s3 := emit_all _ _) in *.
  rewrite Ht1 in Ht3. rewrite Hn1 in Hn3. rewrite Hr1 in Hr3.
  rewrite Hs1 in Hs3. rewrite Htr1 in Htr3.
  destruct (progress_raises (progress_of done count) e); cbv beta iota; cbn [fst snd].
  { rewrite Htr3, Hr3, Hs3, Ht3, <- !app_assoc, app_nil_r.
    destruct (has_watchdog p); auto. }
  destruct (0 <? length (in_flight e)); cbv beta iota; cbn [fst snd].
  { rewrite Htr3, Hr3, Hs3, Ht3, <- !app_assoc, app_nil_r.
    destruct (has_watchdog p); auto. }
  destruct (done <? count); cbv beta iota; cbn [fst snd].
  - destruct (force_next_fields p e (if has_watchdog p then start s3 else s3))
      as (Ht4 & Hr4 & Hs4 & Htr4).
    rewrite Htr4, Hr4, Hs4, Ht4.
    destruct (has_watchdog p).
    + destruct (start_fields s3) as (Ht5 & Hr5 & Hs5 & Htr5).
      rewrite Htr5, Hr5, Hs5, Ht5, Htr3, Hr3, Hs3, Hn3.
      unfold stop_effects. rewrite Ht3.
      rewrite <- !app_assoc. simpl. auto.
    + rewrite Htr3, Hr3, Hs3, Ht3.
      rewrite <- !app_assoc. simpl. auto.
  - destruct (finished_fields p count e s3) as (Ht4 & Hr4 & Hs4 & Htr4).
    rewrite Htr4, Hr4, Hs4, Ht4, Htr3, Hr3, Ht3, <- !app_assoc.
    destruct (has_watchdog p); auto.
Qed.

(** *** Projections of the handler's actions *)

Section Projection.
Variable f : Effect -> bool.
Hypothesis f_bookkeeping : forall x, is_bookkeeping x = true -> f x = false.

Lemma filter_not_located (e : Env) (r p : nat) :
  List.filter f (not_located e r p) = [].
Proof.
  revert p. induction r as [|r IH]; intros p; simpl.
  - reflexivity.
  - destruct (page_container e p); [apply IH|].
    simpl. rewrite f_bookkeeping by reflexivity. apply IH.
Qed.

Lemma filter_finish_effects (p : Program) (count : nat) (e : Env) :
  List.filter f (finish_effects p count e)
  = List.filter f [EventBusOff; DispatchDocumentRendered (terminal_detail p count e)].
Proof.
  unfold finish_effects, terminal_detail. rewrite List.filter_app.
  change (List.filter f [ConsoleInfoAllRendered; EventBusOff; ?d])
    with (if f ConsoleInfoAllRendered
          then ConsoleInfoAllRendered :: List.filter f [EventBusOff; d]
          else List.filter f [EventBusOff; d]).
  rewrite (f_bookkeeping ConsoleInfoAllRendered) by reflexivity.
  destruct (has_heuristic p); [|reflexivity].
  rewrite !List.filter_app, filter_not_located. simpl.
  rewrite f_bookkeeping by reflexivity.
  destruct (enableHighlights_of _); simpl; [reflexivity|].
  now rewrite f_bookkeeping by reflexivity.
Qed.

Lemma filter_handler_effects (p : Program) (pageNumber : Z) (e : Env) (s : St) :
  List.filter f (handler_effects p pageNumber e s)
  = List.filter f
      (progress_effects
         (progress_of (done_after pageNumber s) (app_pagesCount e)) e)
    ++ match branch pageNumber e s with
       | Aborted | Waiting => []
       | Forcing => List.filter f (force_effects e)
       | Finishing =>
           List.filter f
             [EventBusOff;
              DispatchDocumentRendered (terminal_detail p (app_pagesCount e) e)]
       end.
Proof.
  unfold handler_effects. rewrite !List.filter_app.
  assert (Hstop : List.filter f (if has_watchdog p then stop_effects s else []) = []).
  { unfold stop_effects. destruct (has_watchdog p), (timer s); simpl;
      rewrite ?f_bookkeeping; reflexivity. }
  assert (Hmark : List.filter f (mark_effects (pageNumber - 1) s) = []).
  { unfold mark_effects. case_bool_decide; simpl;
      rewrite ?f_bookkeeping; reflexivity. }
  rewrite Hstop, Hmark. simpl. rewrite f_bookkeeping by reflexivity.
  simpl. f_equal. destruct (branch pageNumber e s); try reflexivity.
  - rewrite List.filter_app. destruct (has_watchdog p); simpl;
      rewrite ?f_bookkeeping; reflexivity.
  - apply filter_finish_effects.
Qed.
End Projection.

Lemma is_off_bookkeeping (x : Effect) : is_bookkeeping x = true -> is_off x = false.
Proof. destruct x; simpl; congruence. Qed.

Lemma is_dispatch_bookkeeping (x : Effect) :
  is_bookkeeping x = true -> is_dispatch x = false.
Proof. destruct x; simpl; congruence. Qed.

Lemma is_render_bookkeeping (x : Effect) :
  is_bookkeeping x = true -> is_render x = false.
Proof. destruct x; simpl; congruence. Qed.

Lemma is_progress_bookkeeping (x : Effect) :
  is_bookkeeping x = true -> is_progress x = false.
Proof. destruct x; simpl; congruence. Qed.

Lemma filter_progress_effects (f : Effect -> bool) (progress : Num) (e : Env) :
  (forall x, is_progress x = true -> f x = false) ->
  List.filter f (progress_effects progress e) = [].
Proof.
  intros Hf. unfold progress_effects.
  destruct (loading_dlgbox e) as [[meter]|]; [|reflexivity].
  destruct (num_ge progress 100); [|destruct meter]; simpl;
    rewrite ?Hf; reflexivity.
Qed.

Lemma filter_is_progress_progress_effects (progress : Num) (e : Env) :
  List.filter is_progress (progress_effects progress e)
  = progress_effects progress e.
Proof.
  unfold progress_effects.
  destruct (loading_dlgbox e) as [[meter]|]; [|reflexivity].
  destruct (num_ge progress 100); [|destruct meter]; reflexivity.
Qed.

Lemma filter_force_effects (f : Effect -> bool) (e : Env) :
  (forall v, f (RenderView v) = false) ->
  List.filter f (force_effects e) = [].
Proof.
  intros Hf. unfold force_effects. destruct (next_page e); simpl;
    rewrite ?Hf; reflexivity.
Qed.

(** *** The host's inputs *)

Lemma react_rendered_subscribed (p : Program) (s : St) (e : Env) (pageNumber : Z) :
  subscribed s = true ->
  react p s (e, TextLayerRendered pageNumber) = exec (onRendered p pageNumber) e s.
Proof.
  intros Hsub. unfold react, exec, handle, bind, get. simpl. now rewrite Hsub.
Qed.

Lemma react_rendered_unsubscribed (p : Program) (s : St) (e : Env) (pageNumber : Z) :
  subscribed s = false ->
  react p s (e, TextLayerRendered pageNumber) = s.
Proof.
  intros Hsub. unfold react, exec, handle, bind, get. simpl. now rewrite Hsub.
Qed.

Lemma react_interval_fields (p : Program) (s : St) (e : Env) :
  let s' := react p s (e, IntervalElapsed) in
  timer s' = timer s
  /\ rendered s' = rendered s
  /\ subscribed s' = subscribed s
  /\ List.filter is_off (trace s') = List.filter is_off (trace s)
  /\ List.filter is_dispatch (trace s') = List.filter is_dispatch (trace s).
Proof.
  cbv zeta.
  unfold react, exec, handle, onResumeRender, renderView, bind, get, ask, ret,
    perform, modify.
  simpl.
  destruct (timer s) eqn:Htimer; simpl; [|repeat split; auto].
  destruct (renderingView s) as [v|]; simpl; [|repeat split; auto].
  destruct (RenderingStates_eqb _ _); simpl; [|repeat split; auto].
  rewrite !List.filter_app. simpl. rewrite !app_nil_r. repeat split; auto.
Qed.

Lemma react_rendered_dom (p : Program) (s : St) (i : Env * Input) :
  dom (rendered (react p s i))
  ⊆ dom (rendered s) ∪ list_to_set (delivered_indices [i]).
Proof.
  destruct i as [e [pageNumber|]].
  - destruct (subscribed s) eqn:Hsub.
    + rewrite react_rendered_subscribed by assumption.
      destruct (onRendered_fields p pageNumber e s) as (_ & Hr & _).
      rewrite Hr, dom_insert. simpl. set_solver.
    + rewrite react_rendered_unsubscribed by assumption. set_solver.
  - destruct (react_interval_fields p s e) as (_ & Hr & _).
    rewrite Hr. set_solver.
Qed.

Lemma react_all_rendered_dom (p : Program) (inputs : list (Env * Input)) (s : St) :
  dom (rendered (react_all p inputs s))
  ⊆ dom (rendered s) ∪ list_to_set (delivered_indices inputs).
Proof.
  revert s. induction inputs as [|i rest IH]; intros s.
  - simpl. set_solver.
  - change (react_all p (i :: rest) s) with (react_all p rest (react p s i)).
    pose proof (IH (react p s i)) as Hrest.
    pose proof (react_rendered_dom p s i) as Hi.
    assert (Hsplit : (list_to_set (delivered_indices (i :: rest)) : gset Z)
                     = list_to_set (delivered_indices [i])
                       ∪ list_to_set (delivered_indices rest)).
    { destruct i as [e [pageNumber|]]; simpl; set_solver. }
    rewrite Hsplit. set_solver.
Qed.

Lemma run_state (p : Program) (e : Env) (s : St) :
  exec (run p) e s
  = if negb (keepTextLayers e) then s
    else if has_heuristic p && (MAX_CACHE_SIZE <? viewer_pagesCount e)
    then St_emit (Alert TooLarge) s
    else
      let s1 := emit_all (progress_effects (num_of_Z 0) e) (set_rendered ∅ s) in
      if progress_raises (num_of_Z 0) e then s1
      else St_emit EventBusOn (set_subscribed true s1).
Proof.
  unfold exec, run, bind, ask.
  destruct (negb (keepTextLayers e)); [reflexivity|].
  destruct (has_heuristic p && _); [reflexivity|].
  unfold modify at 1. rewrite updateInitialLoadingProgress_effects. cbv zeta.
  destruct (progress_raises (num_of_Z 0) e); reflexivity.
Qed.

Lemma run_fresh_fields (p : Program) (e : Env) :
  let s := exec (run p) e fresh in
  rendered s = ∅
  /\ timer s = None
  /\ List.filter is_off (trace s) = []
  /\ List.filter is_dispatch (trace s) = [].
Proof.
  cbv zeta. rewrite run_state.
  destruct (negb (keepTextLayers e)); [now auto|].
  destruct (has_heuristic p && _); [now auto|].
  cbv zeta.
  destruct (progress_raises (num_of_Z 0) e); simpl;
    rewrite ?List.filter_app, !filter_progress_effects
      by (intros []; simpl; congruence); auto.
Qed.

(** C2. A page-rendered event for a page that is already marked changes
    neither the map of rendered pages nor its size; the marking step only
    logs the warning.  Hence, after any sequence of inputs to a cycle
    started by [run], the done-count is at most the number of distinct
    page indices delivered. *)
Theorem done_count_idempotent (p : Program) :
  (forall (pageNumber : Z) (e : Env) (s : St),
     rendered s !! (pageNumber - 1)%Z = Some true ->
     mark_rendered (pageNumber - 1) e s
     = (Normal tt, St_emit (ConsoleWarnAlreadyRendered (pageNumber - 1)) s)
     /\ rendered (exec (onRendered p pageNumber) e s) = rendered s
     /\ size (rendered (exec (onRendered p pageNumber) e s)) = size (rendered s))
  /\ (forall (e0 : Env) (inputs : list (Env * Input)),
        size (rendered (react_all p inputs (exec (run p) e0 fresh)))
        <= size (list_to_set (delivered_indices inputs) : gset Z)).
Proof.
  split.
  - intros pageNumber e s Hdup.
    destruct (onRendered_fields p pageNumber e s) as (_ & Hr & _).
    rewrite Hr, insert_id by assumption.
    rewrite mark_rendered_mark. unfold mark.
    rewrite bool_decide_eq_true_2 by assumption. auto.
  - intros e0 inputs.
    pose proof (react_all_rendered_dom p inputs (exec (run p) e0 fresh)) as Hdom.
    destruct (run_fresh_fields p e0) as (Hempty & _).
    rewrite Hempty, dom_empty_L, union_empty_l_L in Hdom.
    rewrite <- size_dom. now apply subseteq_size.
Qed.

(** *** When the handler finishes the cycle *)

Lemma progress_not_off (x : Effect) : is_progress x = true -> is_off x = false.
Proof. destruct x; simpl; congruence. Qed.

Lemma progress_not_dispatch (x : Effect) :
  is_progress x = true -> is_dispatch x = false.
Proof. destruct x; simpl; congruence. Qed.

Lemma progress_not_render (x : Effect) :
  is_progress x = true -> is_render x = false.
Proof. destruct x; simpl; congruence. Qed.

Lemma progress_complete (done count : nat) :
  1 <= done -> count <= done -> num_ge (progress_of done count) 100 = true.
Proof.
  intros Hdone Hcount. unfold progress_of, num_div.
  destruct (Z.of_nat count =? 0)%Z eqn:Hzero.
  - destruct (Z.of_nat done =? 0)%Z eqn:Hd; [apply Z.eqb_eq in Hd; lia|].
    destruct (0 <? Z.of_nat done)%Z eqn:Hpos; [reflexivity|].
    apply Z.ltb_ge in Hpos. lia.
  - apply Z.eqb_neq in Hzero. simpl. apply Qle_bool_iff.
    apply Qle_trans with (1 * inject_Z 100)%Q; [apply Qle_refl|].
    apply Qmult_le_compat_r; [|discriminate].
    apply Qle_shift_div_l.
    + rewrite <- (Zlt_Qlt 0). lia.
    + rewrite Qmult_1_l, <- Zle_Qle. lia.
Qed.

Lemma done_after_positive (pageNumber : Z) (s : St) : 1 <= done_after pageNumber s.
Proof.
  unfold done_after. rewrite map_size_insert.
  destruct (rendered s !! (pageNumber - 1)%Z) as [b|] eqn:Hlookup; simpl; [|lia].
  assert (size (rendered s) <> 0)
    by (apply (map_size_ne_0_lookup_2 _ (pageNumber - 1)%Z); eauto).
  lia.
Qed.

Lemma branch_finishing (pageNumber : Z) (e : Env) (s : St) :
  in_flight e = [] ->
  app_pagesCount e <= done_after pageNumber s ->
  branch pageNumber e s = Finishing.
Proof.
  intros Hnone Hdone. unfold branch, progress_raises.
  rewrite progress_complete by (auto using done_after_positive).
  rewrite Hnone. simpl.
  apply Nat.ltb_ge in Hdone. rewrite Hdone.
  now destruct (loading_dlgbox e).
Qed.

Lemma run_cycle_inv (p : Program) (e : Env) : cycle_inv p (exec (run p) e fresh).
Proof.
  destruct (run_fresh_fields p e) as (_ & Htimer & Hoff & Hdispatch).
  split; auto.
Qed.

Lemma react_cycle_inv (p : Program) (s : St) (i : Env * Input) :
  cycle_inv p s -> cycle_inv p (react p s i).
Proof.
  intros [Hquiet Htimer]. destruct i as [e [pageNumber|]].
  - destruct (subscribed s) eqn:Hsub.
    + rewrite react_rendered_subscribed by assumption.
      destruct (onRendered_fields p pageNumber e s) as (Htr & _ & Hs & Ht & _).
      destruct (Hquiet eq_refl) as [Hoff Hdispatch].
      split.
      * intros Hsub'. rewrite Hs in Hsub'. rewrite Htr, !List.filter_app.
        rewrite Hoff, Hdispatch.
        rewrite !filter_handler_effects
          by auto using is_off_bookkeeping, is_dispatch_bookkeeping.
        rewrite !filter_progress_effects by (intros []; simpl; congruence).
        destruct (branch pageNumber e s); try discriminate; simpl;
          rewrite ?filter_force_effects by reflexivity; auto.
      * intros Hno. rewrite Ht, Hno. auto.
    + rewrite react_rendered_unsubscribed by assumption.
      split; [congruence | assumption].
  - destruct (react_interval_fields p s e) as (Ht & _ & Hs & Hoff & Hdispatch).
    split.
    + rewrite Hs, Hoff, Hdispatch. auto.
    + rewrite Ht. auto.
Qed.

Lemma react_all_cycle_inv (p : Program) (inputs : list (Env * Input)) (s : St) :
  cycle_inv p s -> cycle_inv p (react_all p inputs s).
Proof.
  revert s. induction inputs as [|i rest IH]; intros s Hinv; simpl.
  - assumption.
  - apply IH. now apply react_cycle_inv.
Qed.

(** C1. Take any cycle started by [run] and any inputs after which the
    handler is still subscribed.  If the next page-rendered event brings
    the done-count to the page count while no render that is not paused is
    in flight, then handling it forces no page, ends with
    [eventBus.off] followed by the dispatch of 'documentrendered', and
    these are the only unsubscription and the only dispatch of the whole
    cycle.  Afterwards no input changes the state any more: the driver is
    never invoked again, and nothing is unsubscribed or dispatched a second
    time. *)
Theorem completion_is_terminal (p : Program) (e0 : Env)
    (before : list (Env * Input)) (e : Env) (pageNumber : Z) :
  let s1 := react_all p before (exec (run p) e0 fresh) in
  let s2 := react p s1 (e, TextLayerRendered pageNumber) in
  subscribed s1 = true ->
  size (rendered s2) = app_pagesCount e ->
  outcome getAllRenderPromises e s1 = Normal [] ->
  (exists t detail,
     trace s2 = trace s1 ++ t ++ [EventBusOff; DispatchDocumentRendered detail]
     /\ List.filter is_render t = []
     /\ List.filter is_off t = []
     /\ List.filter is_dispatch t = [])
  /\ List.filter is_off (trace s2) = [EventBusOff]
  /\ (exists detail,
        List.filter is_dispatch (trace s2) = [DispatchDocumentRendered detail])
  /\ List.filter is_render (trace s2) = List.filter is_render (trace s1)
  /\ subscribed s2 = false
  /\ (forall after : list (Env * Input), react_all p after s2 = s2).
Proof.
  intros s1 s2 Hsub Hdone Hnone.
  assert (Hinv : cycle_inv p s1)
    by (apply react_all_cycle_inv, run_cycle_inv).
  destruct Hinv as [Hquiet Htimer]. destruct (Hquiet Hsub) as [Hoff Hdispatch].
  unfold outcome in Hnone. rewrite getAllRenderPromises_in_flight in Hnone.
  simpl in Hnone. injection Hnone as Hnone.
  subst s2. rewrite react_rendered_subscribed in * by assumption.
  destruct (onRendered_fields p pageNumber e s1) as (Htr & Hr & Hs & Ht & _).
  rewrite Hr in Hdone. fold (done_after pageNumber s1) in Hdone.
  assert (Hbranch : branch pageNumber e s1 = Finishing)
    by (apply branch_finishing; [assumption | lia]).
  rewrite Hbranch in Hs, Ht.
  assert (Hf : forall f, (forall x, is_bookkeeping x = true -> f x = false) ->
             (forall x, is_progress x = true -> f x = false) ->
             List.filter f (handler_effects p pageNumber e s1)
             = List.filter f [EventBusOff;
                 DispatchDocumentRendered (terminal_detail p (app_pagesCount e) e)]).
  { intros f Hb Hp. rewrite filter_handler_effects by assumption.
    now rewrite Hbranch, filter_progress_effects. }
  pose proof (Hf is_off is_off_bookkeeping progress_not_off) as Hfoff.
  pose proof (Hf is_dispatch is_dispatch_bookkeeping progress_not_dispatch) as Hfdis.
  pose proof (Hf is_render is_render_bookkeeping progress_not_render) as Hfren.
  assert (Hsplit : exists t,
            handler_effects p pageNumber e s1
            = t ++ [EventBusOff;
                    DispatchDocumentRendered (terminal_detail p (app_pagesCount e) e)]).
  { unfold handler_effects. rewrite Hbranch. unfold finish_effects, terminal_detail.
    change [ConsoleInfoAllRendered; EventBusOff; ?d]
      with ([ConsoleInfoAllRendered] ++ [EventBusOff; d]).
    eexists. rewrite !app_assoc. reflexivity. }
  destruct Hsplit as [t Ht_split].
  rewrite Ht_split, List.filter_app in Hfoff, Hfdis, Hfren.
  simpl in Hfoff, Hfdis, Hfren.
  rewrite app_nil_r in Hfren.
  apply (app_inv_tail _ _ []) in Hfoff, Hfdis.
  split; [|split; [|split; [|split; [|split]]]].
  - exists t, (terminal_detail p (app_pagesCount e) e).
    rewrite Htr, Ht_split. auto.
  - rewrite Htr, Ht_split, !List.filter_app, Hoff, Hfoff. reflexivity.
  - eexists. rewrite Htr, Ht_split, !List.filter_app, Hdispatch, Hfdis. reflexivity.
  - rewrite Htr, Ht_split, !List.filter_app, Hfren. simpl. now rewrite app_nil_r.
  - assumption.
  - intros after. apply react_all_idle; [assumption|].
    rewrite Ht. destruct (has_watchdog p) eqn:Hw; auto.
Qed.

Lemma completion_is_terminal_witness :
  List.filter is_off
    (trace (react_all Watchdog
              [(document 2, TextLayerRendered 2); (document 2, TextLayerRendered 1)]
              (exec (run Watchdog) (document 2) fresh)))
  = [EventBusOff].
Proof.
  destruct (completion_is_terminal Watchdog (document 2)
              [(document 2, TextLayerRendered 2)] (document 2) 1)
    as (_ & Hoff & _).
  - vm_compute. reflexivity.
  - vm_compute. reflexivity.
  - vm_compute. reflexivity.
  - exact Hoff.
Defined.

(** ** The three-page example *)

(** C9 as stated fails in its last progress value: the meter is set to 0
    by [run], to 33 and to 67 by the first two events; the third event
    calls [updateInitialLoadingProgress(100)], which removes the dialog's
    [visible] attribute and returns before [meter.value] is assigned.  The
    meter is never set to 100. *)
Lemma progress_meter_never_set_to_100 :
  List.filter is_progress (trace three_page_run)
  = [SetMeterValue (num_of_Z 0); SetVisible;
     SetMeterValue (num_of_Z 33); SetVisible;
     SetMeterValue (num_of_Z 67); SetVisible;
     RemoveVisible]
  /\ ~ In (SetMeterValue (num_of_Z 100)) (trace three_page_run).
Proof.
  vm_compute. split; [reflexivity|]. intuition congruence.
Qed.

Lemma progress_incomplete_of_3 (k : nat) :
  k < 3 -> num_ge (progress_of k 3) 100 = false.
Proof.
  intros Hk. destruct k as [|[|[|k]]]; [reflexivity..|lia].
Qed.

(** One event of the example that does not complete the document. *)
Lemma example_step (p : Program) (e : Env) (s : St) (pageNumber : Z) (k : nat) :
  subscribed s = true ->
  app_pagesCount e = 3 ->
  loading_dlgbox e = Some {| progress_meter := true |} ->
  in_flight e = [] ->
  done_after pageNumber s = k ->
  k < 3 ->
  exists t,
    trace (react p s (e, TextLayerRendered pageNumber)) = trace s ++ t
    /\ List.filter is_progress t
       = [SetMeterValue (Math_round (progress_of k 3)); SetVisible]
    /\ List.filter is_dispatch t = []
    /\ subscribed (react p s (e, TextLayerRendered pageNumber)) = true
    /\ rendered (react p s (e, TextLayerRendered pageNumber))
       = <[(pageNumber - 1)%Z := true]> (rendered s).
Proof.
  intros Hsub Hcount Hdlg Hnone Hdone Hk.
  rewrite react_rendered_subscribed by assumption.
  destruct (onRendered_fields p pageNumber e s) as (Htr & Hr & Hs & _).
  assert (Hbranch : branch pageNumber e s = Forcing).
  { unfold branch, progress_raises.
    rewrite Hdone, Hcount, Hdlg, Hnone, progress_incomplete_of_3 by assumption.
    simpl. apply Nat.ltb_lt in Hk. now rewrite Hk. }
  rewrite Hbranch in Hs.
  exists (handler_effects p pageNumber e s).
  split; [assumption|].
  rewrite !filter_handler_effects
    by auto using is_progress_bookkeeping, is_dispatch_bookkeeping.
  rewrite Hbranch, !filter_force_effects by reflexivity.
  rewrite filter_is_progress_progress_effects.
  rewrite filter_progress_effects by apply progress_not_dispatch.
  rewrite Hdone, Hcount. unfold progress_effects.
  rewrite Hdlg, progress_incomplete_of_3 by assumption.
  simpl. rewrite Hs, Hsub. auto.
Qed.

(** C9, amended.  Take a cycle started by [run] (the handler is
    subscribed) and three page-rendered events for pairwise distinct page
    numbers, each arriving while the page count is 3, the loading dialog
    and its meter exist, and no render that is not paused is in flight.
    Whatever the page numbers and their order, the first event sets the
    meter to 33 and the second to 67 (each time making the dialog visible);
    the third, whose progress value is 100, hides the dialog and does not
    touch the meter.  No 'documentrendered' is dispatched before the third
    event, exactly one is dispatched by it, and the handler is unsubscribed. *)
Theorem three_page_example (p : Program) (e0 e1 e2 e3 : Env) (n1 n2 n3 : Z) :
  let s0 := exec (run p) e0 fresh in
  let s1 := react p s0 (e1, TextLayerRendered n1) in
  let s2 := react p s1 (e2, TextLayerRendered n2) in
  let s3 := react p s2 (e3, TextLayerRendered n3) in
  subscribed s0 = true ->
  n1 <> n2 -> n1 <> n3 -> n2 <> n3 ->
  (forall e, In e [e1; e2; e3] ->
     app_pagesCount e = 3
     /\ loading_dlgbox e = Some {| progress_meter := true |}
     /\ outcome getAllRenderPromises e fresh = Normal []) ->
  exists t1 t2 t3 detail,
    trace s1 = trace s0 ++ t1
    /\ trace s2 = trace s1 ++ t2
    /\ trace s3 = trace s2 ++ t3
    /\ List.filter is_progress t1 = [SetMeterValue (num_of_Z 33); SetVisible]
    /\ List.filter is_progress t2 = [SetMeterValue (num_of_Z 67); SetVisible]
    /\ List.filter is_progress t3 = [RemoveVisible]
    /\ List.filter is_dispatch (trace s2) = []
    /\ List.filter is_dispatch (trace s3) = [DispatchDocumentRendered detail]
    /\ subscribed s3 = false.
Proof.
  intros s0 s1 s2 s3 Hsub0 H12 H13 H23 Henv.
  assert (Hidle : forall e, In e [e1; e2; e3] ->
            app_pagesCount e = 3
            /\ loading_dlgbox e = Some {| progress_meter := true |}
            /\ in_flight e = []).
  { intros e He. destruct (Henv e He) as (Hc & Hd & Hp).
    unfold outcome in Hp. rewrite getAllRenderPromises_in_flight in Hp.
    simpl in Hp. injection Hp as Hp. auto. }
  destruct (Hidle e1) as (Hc1 & Hd1 & Hf1); [simpl; auto|].
  destruct (Hidle e2) as (Hc2 & Hd2 & Hf2); [simpl; auto|].
  destruct (Hidle e3) as (Hc3 & Hd3 & Hf3); [simpl; auto|].
  destruct (run_fresh_fields p e0) as (Hr0 & _ & _ & Hdis0). fold s0 in Hr0, Hdis0.
  assert (Hdone1 : done_after n1 s0 = 1).
  { unfold done_after. rewrite Hr0.
    rewrite map_size_insert_None by apply lookup_empty.
    now rewrite map_size_empty. }
  destruct (example_step p e1 s0 n1 1) as (t1 & Htr1 & Hp1 & Hdis1 & Hsub1 & Hr1);
    auto.
  fold s1 in Htr1, Hsub1, Hr1.
  assert (Hdone2 : done_after n2 s1 = 2).
  { unfold done_after. rewrite Hr1, Hr0.
    rewrite map_size_insert_None.
    - rewrite map_size_insert_None by apply lookup_empty.
      now rewrite map_size_empty.
    - rewrite lookup_insert_ne by lia. apply lookup_empty. }
  destruct (example_step p e2 s1 n2 2) as (t2 & Htr2 & Hp2 & Hdis2 & Hsub2 & Hr2);
    auto.
  fold s2 in Htr2, Hsub2, Hr2.
  assert (Hdone3 : done_after n3 s2 = 3).
  { unfold done_after. rewrite Hr2, Hr1, Hr0.
    rewrite map_size_insert_None.
    - rewrite map_size_insert_None.
      + rewrite map_size_insert_None by apply lookup_empty.
        now rewrite map_size_empty.
      + rewrite lookup_insert_ne by lia. apply lookup_empty.
    - rewrite !lookup_insert_ne by lia. apply lookup_empty. }
  assert (Hbranch : branch n3 e3 s2 = Finishing)
    by (apply branch_finishing; [assumption | lia]).
  destruct (onRendered_fields p n3 e3 s2) as (Htr3 & _ & Hs3 & _).
  rewrite <- react_rendered_subscribed in Htr3, Hs3 by assumption.
  fold s3 in Htr3, Hs3. rewrite Hbranch in Hs3.
  exists t1, t2, (handler_effects p n3 e3 s2),
    (terminal_detail p (app_pagesCount e3) e3).
  assert (Hquiet2 : List.filter is_dispatch (trace s2) = []).
  { rewrite Htr2, Htr1, !List.filter_app, Hdis0, Hdis1, Hdis2. reflexivity. }
  repeat split; try assumption.
  - rewrite filter_handler_effects by apply is_progress_bookkeeping.
    rewrite Hbranch, filter_is_progress_progress_effects, Hdone3, Hc3.
    unfold progress_effects. rewrite Hd3. reflexivity.
  - rewrite Htr3, List.filter_app, Hquiet2.
    rewrite filter_handler_effects by apply is_dispatch_bookkeeping.
    rewrite Hbranch, filter_progress_effects by apply progress_not_dispatch.
    reflexivity.
Qed.

Lemma three_page_example_witness :
  List.filter is_dispatch (trace three_page_run) = [DispatchDocumentRendered None].
Proof.
  destruct (three_page_example Watchdog (document 3) (document 3) (document 3)
              (document 3) 3 2 1)
    as (t1 & t2 & t3 & detail & _ & _ & _ & _ & _ & _ & _ & Hdispatch & _).
  - vm_compute. reflexivity.
  - lia.
  - lia.
  - lia.
  - intros e [<-|[<-|[<-|[]]]]; vm_compute; auto.
  - vm_compute. reflexivity.
Defined.

(** ** Instances on concrete documents *)

Lemma forEachView_contract_witness :
  forEachView picky_visit half_rendered fresh
  = (Normal (Some 11), St_emit (ConsoleErrorIterating (Raised 7)) fresh).
Proof.
  destruct (forEachView_contract picky_visit half_rendered fresh) as (Hscan & _).
  rewrite Hscan. reflexivity.
Defined.

Lemma renderNextPage_forces_last_unrendered_witness :
  renderNextPage Watchdog half_rendered fresh
  = (Normal tt, force Watchdog 11 fresh)
  /\ trace (force Watchdog 11 fresh) = [RenderView 11].
Proof.
  destruct (renderNextPage_forces_last_unrendered Watchdog half_rendered fresh)
    as (_ & Hsplit & _).
  destruct (Hsplit [10] 11 [12]) as (Hforce & Htrace & _).
  - reflexivity.
  - left. reflexivity.
  - intros q [<-|[]]. exists {| childNodes_length := 1 |}. split; [reflexivity | simpl; lia].
  - split; [exact Hforce | exact Htrace].
Defined.

Lemma onResumeRender_reissues_iff_paused_witness :
  onResumeRender half_rendered (force Watchdog 11 fresh)
  = (Normal tt, St_emit (RenderView 11) (force Watchdog 11 fresh)).
Proof.
  destruct (onResumeRender_reissues_iff_paused half_rendered (force Watchdog 11 fresh))
    as (Hpaused & _).
  apply Hpaused; reflexivity.
Defined.

Lemma done_count_idempotent_witness :
  size (rendered
          (react_all Basic
             [(document 3, TextLayerRendered 3); (document 3, TextLayerRendered 3);
              (document 3, TextLayerRendered 2)]
             (exec (run Basic) (document 3) fresh)))
  <= 2.
Proof.
  destruct (done_count_idempotent Basic) as (_ & Hbound).
  exact (Hbound (document 3)
           [(document 3, TextLayerRendered 3); (document 3, TextLayerRendered 3);
            (document 3, TextLayerRendered 2)]).
Defined.

(** * Further properties *)

(** ** The promise collector *)

Lemma RenderingStates_eqb_eq (a b : RenderingStates) :
  RenderingStates_eqb a b = true <-> a = b.
Proof. destruct a, b; simpl; split; congruence. Qed.

Lemma in_flight_of_In (e : Env) (page : ref) (pr : Promise) :
  In pr (in_flight_of e page) <->
  exists task, paintTask (view e page) = Some task /\ promise task = pr
               /\ renderingState (view e page) <> PAUSED.
Proof.
  unfold in_flight_of. destruct (paintTask (view e page)) as [task|].
  - destruct (RenderingStates_eqb (renderingState (view e page)) PAUSED) eqn:Hst;
      simpl.
    + apply RenderingStates_eqb_eq in Hst. split; [tauto|].
      intros (t & _ & _ & Hne). congruence.
    + split.
      * intros [<-|[]]. exists task. repeat split.
        intros Heq. apply RenderingStates_eqb_eq in Heq. congruence.
      * intros (t & [= <-] & <- & _). now left.
  - simpl. split; [tauto|]. intros (t & Ht & _). discriminate.
Qed.

(** X1. [getAllRenderPromises] returns the promise of the paint task of every
    view that has one and is not paused, and of no other; it returns the
    empty list exactly when every view is paused or has no paint task; it
    never raises, logs nothing and leaves the module as it was. *)
Theorem getAllRenderPromises_collects (e : Env) (s : St) :
  exists promises : list Promise,
    getAllRenderPromises e s = (Normal promises, s)
    /\ (forall pr,
          In pr promises <->
          exists page task,
            In page (_pages e)
            /\ paintTask (view e page) = Some task /\ promise task = pr
            /\ renderingState (view e page) <> PAUSED)
    /\ (promises = [] <->
        forall page, In page (_pages e) ->
          renderingState (view e page) = PAUSED
          \/ paintTask (view e page) = None)
    /\ length promises <= length (_pages e).
Proof.
  exists (in_flight e). split; [apply getAllRenderPromises_in_flight|].
  assert (Hin : forall pr,
            In pr (in_flight e) <->
            exists page task,
              In page (_pages e)
              /\ paintTask (view e page) = Some task /\ promise task = pr
              /\ renderingState (view e page) <> PAUSED).
  { intros pr. unfold in_flight. rewrite in_flat_map. split.
    - intros (page & Hpage & Hpr). apply in_rev in Hpage.
      apply in_flight_of_In in Hpr. destruct Hpr as (task & Hpr).
      exists page, task. tauto.
    - intros (page & task & Hpage & Hpr). exists page. split.
      + now apply in_rev in Hpage.
      + apply in_flight_of_In. exists task. exact Hpr. }
  split; [exact Hin|]. split.
  - split.
    + intros Hnil page Hpage.
      destruct (paintTask (view e page)) as [task|] eqn:Htask; [|now right].
      destruct (renderingState (view e page)) eqn:Hst; try (now left); exfalso;
        assert (Hm : In (promise task) (in_flight e))
          by (apply Hin; exists page, task; repeat split; congruence);
        rewrite Hnil in Hm; exact Hm.
    + intros Hall. destruct (in_flight e) as [|pr rest]; [reflexivity|].
      assert (Hm : In pr (pr :: rest)) by now left.
      apply Hin in Hm. destruct Hm as (page & task & Hpage & Htask & _ & Hst).
      destruct (Hall page Hpage); congruence.
  - unfold in_flight. rewrite <- (length_rev (_pages e)).
    induction (rev (_pages e)) as [|page rest IH]; simpl; [lia|].
    rewrite length_app. unfold in_flight_of at 1.
    destruct (paintTask (view e page)); [destruct (negb _)|]; simpl; lia.
Qed.

(** ** Starting a cycle *)

Lemma run_outcome (p : Program) (e : Env) (s : St) :
  outcome (run p) e s
  = if negb (keepTextLayers e) then Normal tt
    else if has_heuristic p && (MAX_CACHE_SIZE <? viewer_pagesCount e)
    then Normal tt
    else if progress_raises (num_of_Z 0) e then Throw TypeError else Normal tt.
Proof.
  unfold outcome, run, bind, ask.
  destruct (negb (keepTextLayers e)); [reflexivity|].
  destruct (has_heuristic p && _); [reflexivity|].
  unfold modify at 1. rewrite updateInitialLoadingProgress_effects.
  destruct (progress_raises (num_of_Z 0) e); reflexivity.
Qed.

(** X2. [run] subscribes the handler exactly when the viewer keeps text
    layers, the page count is within the ceiling (in the program that has
    one) and the loading dialog, if present, holds a meter.  It then
    returns normally with an empty map of rendered pages, having shown the
    dialog at 0 (when there is one) and subscribed, in this order. *)
Theorem run_subscribes_iff (p : Program) (e : Env) :
  (subscribed (exec (run p) e fresh) = true <->
   keepTextLayers e = true
   /\ (p = Highlights -> viewer_pagesCount e <= MAX_CACHE_SIZE)
   /\ (forall box, loading_dlgbox e = Some box -> progress_meter box = true))
  /\ (subscribed (exec (run p) e fresh) = true ->
      outcome (run p) e fresh = Normal tt
      /\ rendered (exec (run p) e fresh) = ∅
      /\ trace (exec (run p) e fresh)
         = match loading_dlgbox e with
           | Some _ => [SetMeterValue (num_of_Z 0); SetVisible]
           | None => []
           end ++ [EventBusOn]).
Proof.
  rewrite run_state, run_outcome.
  destruct (keepTextLayers e); simpl.
  2: { split; [|discriminate]. split; [discriminate | intros (H & _); discriminate]. }
  assert (Hceil : has_heuristic p && (MAX_CACHE_SIZE <? viewer_pagesCount e) = true
                  <-> ~ (p = Highlights -> viewer_pagesCount e <= MAX_CACHE_SIZE)).
  { rewrite andb_true_iff, Nat.ltb_lt. destruct p; simpl; split;
      try (intros [? ?]; discriminate); try (intros H; exfalso; apply H; discriminate).
    - intros [_ Hlt] Himp. specialize (Himp eq_refl). lia.
    - intros Hn. split; [reflexivity|].
      destruct (Nat.lt_ge_cases MAX_CACHE_SIZE (viewer_pagesCount e)); [assumption|].
      exfalso. apply Hn. intros _. assumption. }
  destruct (has_heuristic p && (MAX_CACHE_SIZE <? viewer_pagesCount e)) eqn:Hc; simpl.
  { split; [|discriminate]. split; [discriminate|].
    intros (_ & Hok & _). exfalso. apply (proj1 Hceil); auto. }
  assert (Hok : p = Highlights -> viewer_pagesCount e <= MAX_CACHE_SIZE).
  { intros Hp. destruct (Nat.le_gt_cases (viewer_pagesCount e) MAX_CACHE_SIZE);
      [assumption|].
    exfalso. assert (Hf : false = true); [|discriminate].
    apply Hceil. intros Himp. specialize (Himp Hp). lia. }
  unfold progress_raises, progress_effects.
  destruct (loading_dlgbox e) as [[meter]|]; simpl.
  - destruct meter; simpl.
    + split; [|auto]. split; [intros _|reflexivity].
      repeat split; auto. intros box [= <-]. reflexivity.
    + split; [|discriminate]. split; [discriminate|].
      intros (_ & _ & Hbox). specialize (Hbox _ eq_refl). discriminate.
  - split; [|auto]. split; [intros _|reflexivity].
    repeat split; auto. discriminate.
Qed.

(** ** The heuristic's log and bounds *)

Lemma not_located_missing (e : Env) (r p : nat) :
  not_located e r p
  = map ConsoleErrorNoContainer
      (List.filter
         (fun q => match page_container e q with Some _ => false | None => true end)
         (seq p r)).
Proof.
  revert p. induction r as [|r IH]; intros p; simpl; [reflexivity|].
  destruct (page_container e p); simpl; now rewrite IH.
Qed.

Lemma located_ext (e1 e2 : Env) (r p : nat) :
  (forall q, p <= q < p + r -> page_container e2 q = page_container e1 q) ->
  located e2 r p = located e1 r p.
Proof.
  revert p. induction r as [|r IH]; intros p Hsame; simpl; [reflexivity|].
  rewrite Hsame by lia. rewrite IH by (intros; apply Hsame; lia). reflexivity.
Qed.

(** X3. [calculateAverageWordLength] never raises and changes no variable of
    the module.  It logs one error for every page from 1 to [totalPages]
    whose container is not found, in page order, then the average; the
    pages not found take no part in the average, which depends on the text
    of the pages 1 to [totalPages] only. *)
Theorem calculateAverageWordLength_skips_missing (count : nat) (e : Env) (s : St) :
  exists (avg : Num) (len : Z) (words : nat) (s' : St),
    calculateAverageWordLength count e s = (Normal avg, s')
    /\ trace s'
       = trace s ++ map ConsoleErrorNoContainer (missing_pages e count)
         ++ [ConsoleLogAverage avg len words]
    /\ renderingView s' = renderingView s /\ timer s' = timer s
    /\ rendered s' = rendered s /\ subscribed s' = subscribed s
    /\ (forall e2 : Env,
          (forall p, 1 <= p <= count -> page_container e2 p = page_container e p) ->
          outcome (calculateAverageWordLength count) e2 s = Normal avg).
Proof.
  do 4 eexists. rewrite calculateAverageWordLength_closed. cbv zeta.
  split; [reflexivity|]. simpl. rewrite not_located_missing, <- app_assoc.
  do 5 (split; [reflexivity|]).
  intros e2 Hsame. unfold outcome.
  rewrite calculateAverageWordLength_closed. cbv zeta. simpl.
  rewrite (located_ext e e2) by (intros; apply Hsame; lia). reflexivity.
Qed.

Lemma split_loop_bound (in_run : bool) (piece text : JsString) :
  length (split_loop in_run piece text) <= length text + 1.
Proof.
  revert in_run piece. induction text as [|c rest IH]; intros in_run piece; simpl.
  - lia.
  - destruct (is_space c); [destruct in_run|]; simpl;
      match goal with |- context [split_loop ?b ?q rest] =>
        specialize (IH b q) end; lia.
Qed.

Lemma sum_len_bound (texts : list JsString) :
  (- Z.of_nat (sum_words texts) <= sum_len texts)%Z.
Proof.
  induction texts as [|text rest IH]; simpl; [lia|].
  pose proof (split_loop_bound false [] text) as Hb.
  pose proof (pwords_positive text) as Hp.
  unfold pwords, split_spaces in *. lia.
Qed.

(** X4. A page of [n] code units never counts for more than [n + 1] words, so
    each page found lowers [len] by 1 at most: the accumulated length is
    never below minus the word count, and the average is never below -1. *)
Theorem average_word_length_lower_bound (count : nat) (e : Env) (s : St) :
  (forall text : JsString, length (split_spaces text) <= length text + 1)
  /\ exists (len : Z) (words : nat) (s1 : St),
       sum_pages count 1 0 0 e s = (Normal (len, words), s1)
       /\ (- Z.of_nat words <= len)%Z
       /\ outcome (calculateAverageWordLength count) e s
          = Normal (num_div len (Z.of_nat words))
       /\ num_lt (num_div len (Z.of_nat words)) (-1) = false.
Proof.
  split; [intros text; apply split_loop_bound|].
  exists (sum_len (located e count 1)), (sum_words (located e count 1)),
    (emit_all (not_located e count 1) s).
  rewrite sum_pages_closed. split; [reflexivity|].
  pose proof (sum_len_bound (located e count 1)) as Hb.
  split; [exact Hb|]. split.
  { unfold outcome. now rewrite calculateAverageWordLength_closed. }
  unfold num_div.
  destruct (Z.of_nat (sum_words (located e count 1)) =? 0)%Z eqn:Hz.
  - apply Z.eqb_eq in Hz.
    assert (Hw : sum_words (located e count 1) = 0) by lia.
    apply sum_words_zero in Hw. rewrite Hw. reflexivity.
  - apply Z.eqb_neq in Hz. simpl. unfold Qlt_bool.
    apply negb_false_iff, Qle_bool_iff, Qle_shift_div_l.
    + rewrite <- (Zlt_Qlt 0). lia.
    + rewrite <- inject_Z_mult, <- Zle_Qle. lia.
Qed.

(** ** How one call of [onRendered] ends *)

Lemma progress_incomplete (done count : nat) :
  done < count -> num_ge (progress_of done count) 100 = false.
Proof.
  intros Hlt. unfold progress_of, num_div.
  destruct (Z.of_nat count =? 0)%Z eqn:Hzero; [apply Z.eqb_eq in Hzero; lia|].
  simpl. apply not_true_iff_false. rewrite Qle_bool_iff. apply Qlt_not_le.
  apply Qlt_le_trans with (1 * inject_Z 100)%Q; [|apply Qle_refl].
  apply Qmult_lt_compat_r; [reflexivity|].
  apply Qlt_shift_div_r.
  - rewrite <- (Zlt_Qlt 0). lia.
  - rewrite Qmult_1_l, <- Zlt_Qlt. lia.
Qed.

Lemma progress_complete_iff (done count : nat) :
  1 <= done -> (num_ge (progress_of done count) 100 = true <-> count <= done).
Proof.
  intros Hdone. split.
  - intros Hge. destruct (Nat.le_gt_cases count done) as [|Hlt]; [assumption|].
    rewrite progress_incomplete in Hge by assumption. discriminate.
  - intros Hle. now apply progress_complete.
Qed.

Lemma branch_aborted (pageNumber : Z) (e : Env) (s : St) :
  branch pageNumber e s = Aborted <->
  exists box, loading_dlgbox e = Some box /\ progress_meter box = false
              /\ done_after pageNumber s < app_pagesCount e.
Proof.
  unfold branch, progress_raises.
  pose proof (progress_complete_iff (done_after pageNumber s) (app_pagesCount e)
                (done_after_positive pageNumber s)) as Hc.
  destruct (loading_dlgbox e) as [[meter]|]; simpl.
  - destruct (num_ge _ 100) eqn:Hge; simpl.
    + split.
      * destruct (0 <? _); [discriminate|]. destruct (_ <? _); discriminate.
      * intros (box & _ & _ & Hlt). apply proj1 in Hc. specialize (Hc eq_refl). lia.
    + destruct meter; simpl.
      * split.
        -- destruct (0 <? _); [discriminate|]. destruct (_ <? _); discriminate.
        -- intros (box & [= <-] & Hm & _). discriminate.
      * split; [intros _|reflexivity]. eexists. repeat split.
        destruct (Nat.le_gt_cases (app_pagesCount e) (done_after pageNumber s));
          [|assumption].
        apply Hc in H. discriminate.
  - split.
    + destruct (0 <? _); [discriminate|]. destruct (_ <? _); discriminate.
    + intros (box & Hbox & _). discriminate.
Qed.

Lemma branch_not_aborted (pageNumber : Z) (e : Env) (s : St) :
  (branch pageNumber e s = Waiting -> in_flight e <> [])
  /\ (branch pageNumber e s = Forcing ->
      in_flight e = [] /\ done_after pageNumber s < app_pagesCount e)
  /\ (branch pageNumber e s = Finishing ->
      in_flight e = [] /\ app_pagesCount e <= done_after pageNumber s).
Proof.
  unfold branch. destruct (progress_raises _ e); [repeat split; discriminate|].
  destruct (in_flight e) as [|pr rest]; simpl.
  - destruct (done_after pageNumber s <? app_pagesCount e) eqn:Hlt.
    + apply Nat.ltb_lt in Hlt. repeat split; try discriminate; auto.
    + apply Nat.ltb_ge in Hlt. repeat split; try discriminate; auto.
  - repeat split; discriminate.
Qed.

Lemma branch_in_flight (pageNumber : Z) (e : Env) (s : St) :
  in_flight e <> [] ->
  branch pageNumber e s = Aborted \/ branch pageNumber e s = Waiting.
Proof.
  intros Hbusy. unfold branch. destruct (progress_raises _ e); [now left|].
  destruct (in_flight e); [congruence|]. now right.
Qed.

Lemma next_page_found (e : Env) (page : ref) :
  next_page e = Some page ->
  In page (_pages e)
  /\ (textLayer (view e page) = None
      \/ exists layer, textLayer (view e page) = Some layer
                       /\ childNodes_length layer < 1).
Proof.
  unfold next_page. intros Hfind. apply find_some in Hfind.
  destruct Hfind as [Hin Hun]. split; [now apply in_rev|].
  unfold unrendered in Hun. destruct (textLayer (view e page)) as [layer|];
    [right|now left].
  exists layer. split; [reflexivity|]. now apply Nat.ltb_lt.
Qed.

Lemma in_flight_outcome (e : Env) (s : St) (l : list Promise) :
  outcome getAllRenderPromises e s = Normal l <-> in_flight e = l.
Proof.
  unfold outcome. rewrite getAllRenderPromises_in_flight. simpl.
  split; congruence.
Qed.

Lemma done_after_exec (p : Program) (pageNumber : Z) (e : Env) (s : St) :
  size (rendered (exec (onRendered p pageNumber) e s)) = done_after pageNumber s.
Proof.
  destruct (onRendered_fields p pageNumber e s) as (_ & Hr & _). now rewrite Hr.
Qed.

Lemma handler_renders (p : Program) (pageNumber : Z) (e : Env) (s : St) :
  List.filter is_render (handler_effects p pageNumber e s)
  = match branch pageNumber e s with
    | Forcing => force_effects e
    | _ => []
    end.
Proof.
  rewrite filter_handler_effects by apply is_render_bookkeeping.
  rewrite filter_progress_effects by apply progress_not_render.
  destruct (branch pageNumber e s); try reflexivity.
  unfold force_effects. now destruct (next_page e).
Qed.

Lemma handler_offs (p : Program) (pageNumber : Z) (e : Env) (s : St) :
  List.filter is_off (handler_effects p pageNumber e s)
  = match branch pageNumber e s with
    | Finishing => [EventBusOff]
    | _ => []
    end.
Proof.
  rewrite filter_handler_effects by apply is_off_bookkeeping.
  rewrite filter_progress_effects by apply progress_not_off.
  destruct (branch pageNumber e s); try reflexivity.
  now apply filter_force_effects.
Qed.

Lemma handler_dispatches (p : Program) (pageNumber : Z) (e : Env) (s : St) :
  List.filter is_dispatch (handler_effects p pageNumber e s)
  = match branch pageNumber e s with
    | Finishing =>
        [DispatchDocumentRendered (terminal_detail p (app_pagesCount e) e)]
    | _ => []
    end.
Proof.
  rewrite filter_handler_effects by apply is_dispatch_bookkeeping.
  rewrite filter_progress_effects by apply progress_not_dispatch.
  destruct (branch pageNumber e s); try reflexivity.
  now apply filter_force_effects.
Qed.

Lemma handler_progress (p : Program) (pageNumber : Z) (e : Env) (s : St) :
  List.filter is_progress (handler_effects p pageNumber e s)
  = progress_effects
      (progress_of (done_after pageNumber s) (app_pagesCount e)) e.
Proof.
  rewrite filter_handler_effects by apply is_progress_bookkeeping.
  rewrite filter_is_progress_progress_effects.
  destruct (branch pageNumber e s); rewrite ?app_nil_r; try reflexivity.
  now rewrite filter_force_effects, app_nil_r.
Qed.

(** X5. While a render that is not paused is in flight, [onRendered] only
    marks the page, logs and updates the progress: it requests no render,
    leaves no interval armed, does not unsubscribe and dispatches nothing,
    also when the done-count has reached the page count. *)
Theorem onRendered_waits_while_in_flight
    (p : Program) (pageNumber : Z) (e : Env) (s : St) :
  outcome getAllRenderPromises e s <> Normal [] ->
  exists t,
    trace (exec (onRendered p pageNumber) e s) = trace s ++ t
    /\ List.filter is_render t = []
    /\ List.filter is_off t = []
    /\ List.filter is_dispatch t = []
    /\ subscribed (exec (onRendered p pageNumber) e s) = subscribed s
    /\ (has_watchdog p = true -> timer (exec (onRendered p pageNumber) e s) = None)
    /\ rendered (exec (onRendered p pageNumber) e s)
       = <[(pageNumber - 1)%Z := true]> (rendered s).
Proof.
  intros Hbusy. rewrite in_flight_outcome in Hbusy.
  destruct (onRendered_fields p pageNumber e s) as (Htr & Hr & Hs & Ht & _).
  exists (handler_effects p pageNumber e s).
  rewrite handler_renders, handler_offs, handler_dispatches, Hs, Ht.
  split; [assumption|].
  destruct (branch_in_flight pageNumber e s Hbusy) as [-> | ->];
    repeat split; auto; intros ->; reflexivity.
Qed.

Lemma onRendered_waits_while_in_flight_witness :
  List.filter is_render
    (trace (react Watchdog (exec (run Watchdog) busy_document fresh)
              (busy_document, TextLayerRendered 2)))
  = [].
Proof.
  destruct (onRendered_waits_while_in_flight Watchdog 2 busy_document
              (exec (run Watchdog) busy_document fresh))
    as (t & Htr & Hrender & _).
  - vm_compute. discriminate.
  - rewrite react_rendered_subscribed by reflexivity.
    rewrite Htr, List.filter_app, Hrender. reflexivity.
Defined.

(** X6. One call of [onRendered] requests at most one render, and only for a
    view of the page array that is not yet rendered, when no render that
    is not paused is in flight and the done-count is below the page
    count. *)
Theorem onRendered_forces_at_most_one
    (p : Program) (pageNumber : Z) (e : Env) (s : St) :
  exists t,
    trace (exec (onRendered p pageNumber) e s) = trace s ++ t
    /\ (List.filter is_render t = []
        \/ exists page,
             List.filter is_render t = [RenderView page]
             /\ In page (_pages e)
             /\ (textLayer (view e page) = None
                 \/ exists layer, textLayer (view e page) = Some layer
                                  /\ childNodes_length layer < 1)
             /\ outcome getAllRenderPromises e s = Normal []
             /\ size (rendered (exec (onRendered p pageNumber) e s))
                < app_pagesCount e).
Proof.
  destruct (onRendered_fields p pageNumber e s) as (Htr & _).
  exists (handler_effects p pageNumber e s). split; [assumption|].
  rewrite handler_renders.
  destruct (branch pageNumber e s) eqn:Hb; auto.
  destruct (branch_not_aborted pageNumber e s) as (_ & Hforcing & _).
  destruct (Hforcing Hb) as [Hnone Hlt].
  unfold force_effects. destruct (next_page e) as [page|] eqn:Hnext; [|now left].
  right. exists page. rewrite done_after_exec, in_flight_outcome.
  destruct (next_page_found e page Hnext). auto.
Qed.

(** X7. A step of the cycle dispatches 'documentrendered' only when it is a
    page-rendered event handled while subscribed, with no render that is
    not paused in flight and a done-count that has reached the page count;
    the step then dispatches exactly one event and unsubscribes. *)
Theorem documentrendered_not_early (p : Program) (s : St) (i : Env * Input) :
  List.filter is_dispatch (trace (react p s i))
  = List.filter is_dispatch (trace s)
  \/ exists e pageNumber detail,
       i = (e, TextLayerRendered pageNumber)
       /\ subscribed s = true
       /\ outcome getAllRenderPromises e s = Normal []
       /\ app_pagesCount e <= size (rendered (react p s i))
       /\ List.filter is_dispatch (trace (react p s i))
          = List.filter is_dispatch (trace s) ++ [DispatchDocumentRendered detail]
       /\ subscribed (react p s i) = false.
Proof.
  destruct i as [e [pageNumber|]].
  - destruct (subscribed s) eqn:Hsub.
    + rewrite react_rendered_subscribed by assumption.
      destruct (onRendered_fields p pageNumber e s) as (Htr & _ & Hs & _).
      rewrite Htr, List.filter_app, handler_dispatches.
      destruct (branch pageNumber e s) eqn:Hb; rewrite ?app_nil_r; auto.
      right. exists e, pageNumber, (terminal_detail p (app_pagesCount e) e).
      destruct (branch_not_aborted pageNumber e s) as (_ & _ & Hfinishing).
      destruct (Hfinishing Hb) as [Hnone Hle].
      rewrite done_after_exec, in_flight_outcome, Hs. repeat split; auto.
    + rewrite react_rendered_unsubscribed by assumption. now left.
  - destruct (react_interval_fields p s e) as (_ & _ & _ & _ & Hdispatch).
    now left.
Qed.

(** X8. In the programs with a watchdog, an interval is armed after a call of
    [onRendered] exactly when the call returned normally, found no render
    that is not paused in flight and a done-count below the page count:
    the handler goes on to [renderNextPage], whether or not a page is left
    to force.  The interval is the one just set. *)
Theorem timer_armed_iff_forcing (p : Program) (pageNumber : Z) (e : Env) (s : St) :
  has_watchdog p = true ->
  (timer (exec (onRendered p pageNumber) e s) <> None <->
   outcome (onRendered p pageNumber) e s = Normal tt
   /\ outcome getAllRenderPromises e s = Normal []
   /\ size (rendered (exec (onRendered p pageNumber) e s)) < app_pagesCount e)
  /\ (timer (exec (onRendered p pageNumber) e s) <> None ->
      timer (exec (onRendered p pageNumber) e s) = Some (next_interval s)).
Proof.
  intros Hw.
  destruct (onRendered_fields p pageNumber e s) as (_ & _ & _ & Ht & Hout).
  rewrite Ht, Hout, Hw, done_after_exec, in_flight_outcome.
  destruct (branch_not_aborted pageNumber e s) as (Hwaiting & Hforcing & Hfinishing).
  destruct (branch pageNumber e s) eqn:Hb.
  - split; [|congruence]. split; [congruence | intros (H & _); discriminate].
  - split; [|congruence]. split; [congruence|].
    intros (_ & Hnone & _). now apply Hwaiting in Hnone.
  - split; [|reflexivity]. split; [intros _ | discriminate].
    destruct (Hforcing eq_refl). auto.
  - split; [|congruence]. split; [congruence|].
    intros (_ & _ & Hlt). destruct (Hfinishing eq_refl). lia.
Qed.

Lemma timer_armed_iff_forcing_witness :
  timer after_first_event = Some 1
  /\ List.filter is_render (trace after_first_event) = [].
Proof.
  destruct (timer_armed_iff_forcing Watchdog 3 (document 3)
              (exec (run Watchdog) (document 3) fresh) eq_refl)
    as (_ & Harmed).
  split; [|reflexivity].
  apply Harmed. vm_compute. discriminate.
Defined.

(** ** The progress dialog during a cycle *)

Lemma In_progress_effects (p : Program) (pageNumber : Z) (e : Env) (s : St)
    (x : Effect) :
  is_progress x = true ->
  (In x (handler_effects p pageNumber e s) <->
   In x (progress_effects
           (progress_of (done_after pageNumber s) (app_pagesCount e)) e)).
Proof.
  intros Hx. rewrite <- (handler_progress p), filter_In. tauto.
Qed.


(** X9. One call of [onRendered] hides the loading dialog exactly when there
    is one and the done-count has reached the page count, whether or not
    renders are still in flight; it makes the dialog visible exactly when
    the dialog holds a meter and the done-count is below the page count. *)
Theorem loading_dialog_follows_done_count
    (p : Program) (pageNumber : Z) (e : Env) (s : St) :
  exists t,
    trace (exec (onRendered p pageNumber) e s) = trace s ++ t
    /\ (In RemoveVisible t <->
        loading_dlgbox e <> None
        /\ app_pagesCount e
           <= size (rendered (exec (onRendered p pageNumber) e s)))
    /\ (In SetVisible t <->
        (exists box, loading_dlgbox e = Some box /\ progress_meter box = true)
        /\ size (rendered (exec (onRendered p pageNumber) e s))
           < app_pagesCount e).
Proof.
  destruct (onRendered_fields p pageNumber e s) as (Htr & _).
  exists (handler_effects p pageNumber e s). split; [assumption|].
  rewrite !In_progress_effects by reflexivity. rewrite done_after_exec.
  pose proof (progress_complete_iff (done_after pageNumber s) (app_pagesCount e)
                (done_after_positive pageNumber s)) as Hc.
  unfold progress_effects.
  destruct (loading_dlgbox e) as [[meter]|]; simpl.
  - destruct (num_ge _ 100) eqn:Hge; simpl.
    + assert (Hle : app_pagesCount e <= done_after pageNumber s) by now apply Hc.
      split.
      * split; [intros _; split; [discriminate | assumption] | auto].
      * split; [intros [H|[]]; discriminate | intros (_ & Hlt); lia].
    + assert (Hlt : done_after pageNumber s < app_pagesCount e).
      { destruct (Nat.le_gt_cases (app_pagesCount e) (done_after pageNumber s))
          as [Hle|]; [|assumption].
        apply Hc in Hle. congruence. }
      destruct meter; simpl.
      * split.
        -- split; [intros [H|[H|[]]]; discriminate | intros (_ & Hle); lia].
        -- split; [intros _; split; [eexists; eauto | assumption] | auto].
      * split.
        -- split; [intros [] | intros (_ & Hle); lia].
        -- split; [intros [] | intros ((box & [= <-] & Hm) & _); discriminate].
  - split.
    + split; [intros [] | intros (Hne & _); congruence].
    + split; [intros [] | intros ((box & Hbox & _) & _); discriminate].
Qed.


(** ** When [onRendered] raises *)

(** X11. [onRendered] raises exactly when the loading dialog is present without
    a meter and the done-count is below the page count, and then raises a
    TypeError.  By then the page is marked and the progress line logged;
    nothing is written to the dialog, no render is requested, no interval
    is left armed, and the handler stays subscribed. *)
Theorem onRendered_raises_iff (p : Program) (pageNumber : Z) (e : Env) (s : St) :
  (forall x,
     outcome (onRendered p pageNumber) e s = Throw x <->
     x = TypeError
     /\ (exists box, loading_dlgbox e = Some box /\ progress_meter box = false)
     /\ size (rendered (exec (onRendered p pageNumber) e s)) < app_pagesCount e)
  /\ (forall x,
        outcome (onRendered p pageNumber) e s = Throw x ->
        rendered (exec (onRendered p pageNumber) e s)
        = <[(pageNumber - 1)%Z := true]> (rendered s)
        /\ subscribed (exec (onRendered p pageNumber) e s) = subscribed s
        /\ (has_watchdog p = true ->
            timer (exec (onRendered p pageNumber) e s) = None)
        /\ exists t,
             trace (exec (onRendered p pageNumber) e s) = trace s ++ t
             /\ In (ConsoleLogPageRendered (pageNumber - 1)
                      (size (rendered (exec (onRendered p pageNumber) e s)))
                      (app_pagesCount e)) t
             /\ List.filter is_progress t = []
             /\ List.filter is_render t = []
             /\ List.filter is_off t = []
             /\ List.filter is_dispatch t = []).
Proof.
  destruct (onRendered_fields p pageNumber e s) as (Htr & Hr & Hs & Ht & Hout).
  pose proof (branch_aborted pageNumber e s) as Hab.
  rewrite done_after_exec, Hout.
  assert (Hiff : forall x,
    match branch pageNumber e s with
    | Aborted => Throw TypeError
    | _ => Normal tt
    end = Throw x <-> x = TypeError /\ branch pageNumber e s = Aborted).
  { intros x. destruct (branch pageNumber e s); split;
      try discriminate; try (intros [_ H]; discriminate).
    - intros [= <-]. auto.
    - intros [-> _]. reflexivity. }
  split.
  - intros x. rewrite Hiff, Hab. split.
    + intros (-> & box & Hbox & Hm & Hlt). eauto 10.
    + intros (-> & (box & Hbox & Hm) & Hlt). eauto 10.
  - intros x Hx. apply Hiff in Hx. destruct Hx as [-> Hb].
    rewrite Hs, Ht, Hb. split; [assumption|]. split; [reflexivity|].
    split; [now destruct (has_watchdog p)|].
    exists (handler_effects p pageNumber e s). split; [assumption|].
    rewrite handler_progress, handler_renders, handler_offs, handler_dispatches, Hb.
    split.
    { unfold handler_effects. rewrite !in_app_iff. right. right. left. now left. }
    split; [|auto].
    apply Hab in Hb. destruct Hb as (box & Hbox & Hm & Hlt).
    unfold progress_effects. rewrite Hbox, progress_incomplete, Hm by assumption.
    reflexivity.
Qed.

(** ** Invariants of a cycle *)

Lemma react_interval_trace (p : Program) (s : St) (e : Env) :
  trace (react p s (e, IntervalElapsed)) = trace s
  \/ exists v, trace (react p s (e, IntervalElapsed)) = trace s ++ [RenderView v].
Proof.
  unfold react, exec, handle, onResumeRender, renderView, bind, get, ask, ret,
    perform, modify. simpl.
  destruct (timer s); simpl; [|now left].
  destruct (renderingView s) as [v|]; simpl; [|now left].
  destruct (RenderingStates_eqb _ _); simpl; [|now left].
  right. now exists v.
Qed.

(** The shape of one step: nothing, one call of [onRendered], or one
    re-issued render. *)
Lemma react_trace (p : Program) (s : St) (i : Env * Input) :
  trace (react p s i) = trace s
  \/ (exists e pageNumber,
        trace (react p s i) = trace s ++ handler_effects p pageNumber e s)
  \/ exists v, trace (react p s i) = trace s ++ [RenderView v].
Proof.
  destruct i as [e [pageNumber|]].
  - destruct (subscribed s) eqn:Hsub.
    + rewrite react_rendered_subscribed by assumption.
      destruct (onRendered_fields p pageNumber e s) as (Htr & _). eauto.
    + rewrite react_rendered_unsubscribed by assumption. now left.
  - destruct (react_interval_trace p s e); auto.
Qed.

Lemma cycle_never (f : Effect -> bool) (p : Program) :
  (forall v, f (RenderView v) = false) ->
  (forall pageNumber e s, List.filter f (handler_effects p pageNumber e s) = []) ->
  forall (inputs : list (Env * Input)) (s : St),
    List.filter f (trace s) = [] ->
    List.filter f (trace (react_all p inputs s)) = [].
Proof.
  intros Hrender Hhandler inputs.
  induction inputs as [|i rest IH]; intros s Hs; simpl; [assumption|].
  apply IH.
  destruct (react_trace p s i) as [-> | [(e & pageNumber & ->) | (v & ->)]].
  - assumption.
  - now rewrite List.filter_app, Hs, Hhandler.
  - rewrite List.filter_app, Hs. simpl. now rewrite Hrender.
Qed.

Lemma filter_not_located_quiet (f : Effect -> bool) (e : Env) (r p : nat) :
  (forall q, f (ConsoleErrorNoContainer q) = false) ->
  List.filter f (not_located e r p) = [].
Proof.
  intros Hf. revert p. induction r as [|r IH]; intros p; simpl; [reflexivity|].
  destruct (page_container e p); simpl; rewrite ?Hf; apply IH.
Qed.

Lemma handler_alerts (p : Program) (pageNumber : Z) (e : Env) (s : St) :
  has_heuristic p = false ->
  List.filter is_alert (handler_effects p pageNumber e s) = [].
Proof.
  intros Hp. unfold handler_effects. rewrite !List.filter_app.
  assert (H1 : List.filter is_alert (if has_watchdog p then stop_effects s else []) = []).
  { unfold stop_effects. now destruct (has_watchdog p), (timer s). }
  assert (H2 : List.filter is_alert (mark_effects (pageNumber - 1) s) = []).
  { unfold mark_effects. now case_bool_decide. }
  rewrite H1, H2, filter_progress_effects by (intros []; simpl; congruence).
  simpl. destruct (branch pageNumber e s); try reflexivity.
  - rewrite List.filter_app, filter_force_effects by reflexivity.
    now destruct (has_watchdog p).
  - unfold finish_effects. now rewrite Hp.
Qed.

Lemma handler_timers (p : Program) (pageNumber : Z) (e : Env) (s : St) :
  List.filter is_timer (handler_effects p pageNumber e s)
  = (if has_watchdog p then stop_effects s else [])
    ++ match branch pageNumber e s with
       | Forcing =>
           if has_watchdog p then [SetInterval (next_interval s)] else []
       | _ => []
       end.
Proof.
  unfold handler_effects. rewrite !List.filter_app.
  assert (H1 : List.filter is_timer (if has_watchdog p then stop_effects s else [])
               = (if has_watchdog p then stop_effects s else [])).
  { unfold stop_effects. now destruct (has_watchdog p), (timer s). }
  assert (H2 : List.filter is_timer (mark_effects (pageNumber - 1) s) = []).
  { unfold mark_effects. now case_bool_decide. }
  rewrite H1, H2, filter_progress_effects by (intros []; simpl; congruence).
  simpl. f_equal. destruct (branch pageNumber e s); try reflexivity.
  - rewrite List.filter_app, filter_force_effects by reflexivity.
    rewrite app_nil_r. now destruct (has_watchdog p).
  - unfold finish_effects. rewrite List.filter_app.
    destruct (has_heuristic p); [|reflexivity].
    rewrite !List.filter_app, filter_not_located_quiet by reflexivity.
    simpl. now destruct (enableHighlights_of _).
Qed.

Lemma run_trace_quiet (f : Effect -> bool) (p : Program) (e : Env) :
  (forall x, is_progress x = true -> f x = false) ->
  f EventBusOn = false ->
  (has_heuristic p = true -> f (Alert TooLarge) = false) ->
  List.filter f (trace (exec (run p) e fresh)) = [].
Proof.
  intros Hprogress Hon Halert. rewrite run_state.
  destruct (negb (keepTextLayers e)); [reflexivity|].
  destruct (has_heuristic p) eqn:Hp; simpl.
  - destruct (MAX_CACHE_SIZE <? viewer_pagesCount e); simpl.
    + now rewrite Halert.
    + destruct (progress_raises _ e); simpl;
        rewrite ?List.filter_app, filter_progress_effects by assumption;
        simpl; rewrite ?Hon; reflexivity.
  - destruct (progress_raises _ e); simpl;
      rewrite ?List.filter_app, filter_progress_effects by assumption;
      simpl; rewrite ?Hon; reflexivity.
Qed.

(** X12. What each program never does, in any cycle started by [run]: the two
    programs without the heuristic never show a notice and never attach a
    detail to 'documentrendered'; the program with the heuristic never
    dispatches the event without the detail; the program without the
    watchdog never sets or clears an interval. *)
Theorem program_specific_actions (e0 : Env) (inputs : list (Env * Input)) :
  (forall p, has_heuristic p = false ->
     List.filter is_alert
       (trace (react_all p inputs (exec (run p) e0 fresh))) = []
     /\ List.filter is_flagged_dispatch
          (trace (react_all p inputs (exec (run p) e0 fresh))) = [])
  /\ List.filter is_plain_dispatch
       (trace (react_all Highlights inputs (exec (run Highlights) e0 fresh))) = []
  /\ List.filter is_timer
       (trace (react_all Basic inputs (exec (run Basic) e0 fresh))) = []
  /\ timer (react_all Basic inputs (exec (run Basic) e0 fresh)) = None.
Proof.
  assert (Hdetail : forall f p,
            (forall x, is_bookkeeping x = true -> f x = false) ->
            (forall x, is_progress x = true -> f x = false) ->
            (forall v, f (RenderView v) = false) ->
            f EventBusOff = false ->
            (forall count e, f (DispatchDocumentRendered (terminal_detail p count e))
                             = false) ->
            forall pageNumber e s,
              List.filter f (handler_effects p pageNumber e s) = []).
  { intros f p Hb Hp Hr Hoff Hd pageNumber e s.
    rewrite filter_handler_effects, filter_progress_effects by assumption.
    destruct (branch pageNumber e s); simpl;
      rewrite ?filter_force_effects, ?Hoff, ?Hd by assumption; reflexivity. }
  split; [|split; [|split]].
  - intros p Hp. split.
    + apply cycle_never; [reflexivity | intros; now apply handler_alerts |].
      apply run_trace_quiet; try reflexivity; [intros []; simpl; congruence|].
      congruence.
    + apply cycle_never; [reflexivity | |].
      * apply Hdetail; try reflexivity; try (intros []; simpl; congruence);
          unfold terminal_detail; now rewrite Hp.
      * apply run_trace_quiet; try reflexivity. intros []; simpl; congruence.
  - apply cycle_never; [reflexivity | |].
    + apply Hdetail; try reflexivity; intros []; simpl; congruence.
    + apply run_trace_quiet; try reflexivity. intros []; simpl; congruence.
  - apply cycle_never; [reflexivity | |].
    + intros pageNumber e s. rewrite handler_timers. simpl.
      now destruct (branch pageNumber e s).
    + apply run_trace_quiet; try reflexivity. intros []; simpl; congruence.
  - apply (react_all_cycle_inv Basic inputs); [apply run_cycle_inv | reflexivity].
Qed.

Lemma live_intervals_filter (l : list Effect) (live : list nat) :
  fold_left interval_step l live
  = fold_left interval_step (List.filter is_timer l) live.
Proof.
  revert live. induction l as [|x l IH]; intros live; simpl; [reflexivity|].
  destruct x; simpl; apply IH.
Qed.

Lemma live_intervals_app (tr l : list Effect) :
  live_intervals (tr ++ l)
  = fold_left interval_step (List.filter is_timer l) (live_intervals tr).
Proof.
  unfold live_intervals. now rewrite fold_left_app, live_intervals_filter.
Qed.

Lemma react_live_intervals (p : Program) (s : St) (i : Env * Input) :
  live_intervals (trace s) = timer_list s ->
  live_intervals (trace (react p s i)) = timer_list (react p s i).
Proof.
  intros Hinv. destruct i as [e [pageNumber|]].
  - destruct (subscribed s) eqn:Hsub.
    + rewrite react_rendered_subscribed by assumption.
      destruct (onRendered_fields p pageNumber e s) as (Htr & _ & _ & Ht & _).
      rewrite Htr, live_intervals_app, handler_timers, Hinv.
      unfold timer_list. rewrite Ht. unfold stop_effects.
      destruct (has_watchdog p).
      * destruct (timer s) as [id|]; simpl; rewrite ?Nat.eqb_refl; simpl;
          now destruct (branch pageNumber e s).
      * destruct (branch pageNumber e s); reflexivity.
    + now rewrite react_rendered_unsubscribed.
  - destruct (react_interval_fields p s e) as (Ht & _).
    unfold timer_list. rewrite Ht. fold (timer_list s).
    destruct (react_interval_trace p s e) as [-> | (v & ->)]; [assumption|].
    now rewrite live_intervals_app.
Qed.

(** X13. At every point of a cycle started by [run], the intervals set and not
    yet cleared are exactly the one held in [timer], if any: no interval is
    ever left running without a handle to clear it, and at most one runs. *)
Theorem at_most_one_interval (p : Program) (e0 : Env)
    (inputs : list (Env * Input)) :
  live_intervals (trace (react_all p inputs (exec (run p) e0 fresh)))
  = match timer (react_all p inputs (exec (run p) e0 fresh)) with
    | Some id => [id]
    | None => []
    end
  /\ length (live_intervals
               (trace (react_all p inputs (exec (run p) e0 fresh)))) <= 1.
Proof.
  assert (Hinv : forall inputs s,
            live_intervals (trace s) = timer_list s ->
            live_intervals (trace (react_all p inputs s))
            = timer_list (react_all p inputs s)).
  { clear inputs. induction inputs as [|i rest IH]; intros s Hs; simpl;
      [assumption|].
    apply IH. now apply react_live_intervals. }
  assert (Hstart : live_intervals (trace (exec (run p) e0 fresh))
                   = timer_list (exec (run p) e0 fresh)).
  { destruct (run_fresh_fields p e0) as (_ & Ht & _).
    unfold timer_list. rewrite Ht.
    change (trace (exec (run p) e0 fresh))
      with ([] ++ trace (exec (run p) e0 fresh)).
    rewrite live_intervals_app, run_trace_quiet; try reflexivity.
    intros []; simpl; congruence. }
  specialize (Hinv inputs _ Hstart). unfold timer_list in Hinv.
  split; [exact Hinv|]. rewrite Hinv.
  destruct (timer _); simpl; lia.
Qed.

Lemma react_rendered_step (p : Program) (s : St) (i : Env * Input) :
  rendered (react p s i) = rendered s
  \/ exists e pageNumber,
       i = (e, TextLayerRendered pageNumber)
       /\ rendered (react p s i) = <[(pageNumber - 1)%Z := true]> (rendered s).
Proof.
  destruct i as [e [pageNumber|]].
  - destruct (subscribed s) eqn:Hsub.
    + rewrite react_rendered_subscribed by assumption.
      destruct (onRendered_fields p pageNumber e s) as (_ & Hr & _). eauto.
    + rewrite react_rendered_unsubscribed by assumption. now left.
  - destruct (react_interval_fields p s e) as (_ & Hr & _). now left.
Qed.

(** X14. The done-count never goes down and grows by at most one for each
    page-rendered event; a page once marked stays marked. *)
Theorem done_count_monotone (p : Program) (inputs : list (Env * Input)) (s : St) :
  size (rendered s) <= size (rendered (react_all p inputs s))
  /\ size (rendered (react_all p inputs s)) <= size (rendered s) + page_events inputs
  /\ forall num,
       rendered s !! num = Some true ->
       rendered (react_all p inputs s) !! num = Some true.
Proof.
  revert s. induction inputs as [|i rest IH]; intros s.
  - simpl. unfold page_events. simpl. repeat split; auto; lia.
  - change (react_all p (i :: rest) s) with (react_all p rest (react p s i)).
    destruct (IH (react p s i)) as (Hlo & Hhi & Hkeep).
    destruct (react_rendered_step p s i) as [Hr | (e & pageNumber & -> & Hr)].
    + rewrite Hr in *. repeat split; auto.
      unfold page_events in *. destruct i as [e [pageNumber|]]; simpl in *; lia.
    + rewrite Hr in *. unfold page_events in *. simpl.
      rewrite map_size_insert in Hlo, Hhi.
      repeat split.
      * destruct (rendered s !! (pageNumber - 1)%Z); unfold id in *; lia.
      * destruct (rendered s !! (pageNumber - 1)%Z); unfold id in *; lia.
      * intros num Hnum. apply Hkeep.
        destruct (Z.eq_dec (pageNumber - 1)%Z num) as [<-|Hne].
        -- apply lookup_insert_eq.
        -- now rewrite lookup_insert_ne.
Qed.

(** ** The watchdog after a forced render *)

(** X15. In the programs with a watchdog, when [renderNextPage] has forced a
    view, the next tick requests the render of that same view again exactly
    when the view is paused by then; when [renderNextPage] found no view,
    the recorded view is left as it was. *)
Theorem tick_after_force (p : Program) (e e' : Env) (s : St) :
  has_watchdog p = true ->
  (forall page,
     List.find (unrendered e) (rev (_pages e)) = Some page ->
     renderingView (exec (renderNextPage p) e s) = Some page
     /\ (renderingState (view e' page) = PAUSED ->
         onResumeRender e' (exec (renderNextPage p) e s)
         = (Normal tt, St_emit (RenderView page) (exec (renderNextPage p) e s)))
     /\ (renderingState (view e' page) <> PAUSED ->
         onResumeRender e' (exec (renderNextPage p) e s)
         = (Normal tt, exec (renderNextPage p) e s)))
  /\ (List.find (unrendered e) (rev (_pages e)) = None ->
      exec (renderNextPage p) e s = s).
Proof.
  intros Hw. unfold exec. rewrite renderNextPage_force_next. simpl.
  unfold force_next, next_page. split.
  - intros page Hfind. rewrite Hfind. unfold force. rewrite Hw.
    split; [reflexivity|].
    unfold onResumeRender, renderView, bind, get, ask, ret, perform, modify. simpl.
    split.
    + intros ->. reflexivity.
    + intros Hne. destruct (renderingState (view e' page)); try reflexivity.
      congruence.
  - intros ->. reflexivity.
Qed.

Lemma tick_after_force_witness :
  onResumeRender half_rendered (exec (renderNextPage Watchdog) half_rendered fresh)
  = (Normal tt,
     St_emit (RenderView 11) (exec (renderNextPage Watchdog) half_rendered fresh)).
Proof.
  destruct (tick_after_force Watchdog half_rendered half_rendered fresh eq_refl)
    as (Hforced & _).
  destruct (Hforced 11 eq_refl) as (_ & Hpaused & _).
  apply Hpaused. reflexivity.
Defined.

(** ** Completion *)




